(** * digiBoard: the live-session relay of [server/index.js]

    The relay is the Socket.IO part of the server: two process-wide
    variables ([liveTeachers], [currentLiveTeacher]), two closure variables
    per open socket ([currentTeacherId], [isStudent]) and seven event
    handlers.  The handlers are embedded below as state transformers that
    also return the messages they emit.  Socket.IO itself is a dependency of
    the repository; the primitives the handlers call ([socket.join],
    [socket.leave], [socket.emit], [io.emit], [socket.broadcast.to]) are
    modelled by their documented behaviour. *)

From stdpp Require Import gmap strings list fin_maps fin_sets.

Module Relay.

(** ** Messages ([types/socket.ts]) *)

Record WhiteboardUpdate := mkWhiteboardUpdate {
  teacherId : string;
  whiteboardData : string
}.

(** [ClientToServerEvents] *)
Inductive ClientToServerEvents :=
  | CheckTeacherStatus
  | StartLive (tid : string)
  | StopLive (tid : string)
  | WhiteboardUpdateIn (data : WhiteboardUpdate)
  | JoinTeacherRoom (tid : string)
  | LeaveTeacherRoom (tid : string).

(** [ServerToClientEvents] *)
Inductive ServerToClientEvents :=
  | WhiteboardUpdateOut (data : WhiteboardUpdate)
  | TeacherOnline (tid : string)
  | TeacherOffline (tid : string)
  | LiveError (message : string).

(** One call of an emit primitive: the sockets it is sent to and the event. *)
Definition Emission : Type := gset nat * ServerToClientEvents.

(** ** State *)

(** What the server holds for one open socket: the two [let] variables of the
    connection callback and the rooms the socket is in ([socket.rooms]). *)
Record Socket := mkSocket {
  currentTeacherId : option string;
  isStudent : bool;
  rooms : gset string
}.

(** Sockets are identified by a number; the server never hands out the same
    socket twice, [nextSocket] is the next fresh one. *)
Record Relay := mkRelay {
  liveTeachers : gmap string (gset nat);
  currentLiveTeacher : option string;
  sockets : gmap nat Socket;
  nextSocket : nat
}.

Definition initial : Relay := mkRelay ∅ None ∅ 0.

(** JavaScript's [if (v)] on a variable that is [null] or a string: [null]
    and the empty string are falsy, every other string is truthy. *)
Definition truthy (v : option string) : bool :=
  match v with
  | None => false
  | Some EmptyString => false
  | Some (String _ _) => true
  end.

(** [`teacher-${teacherId}`] *)
Definition room_of (tid : string) : string := "teacher-" +:+ tid.

(** ** Socket.IO primitives *)

Definition set_currentTeacherId (v : option string) (s : Socket) : Socket :=
  mkSocket v (isStudent s) (rooms s).

Definition set_isStudent (b : bool) (s : Socket) : Socket :=
  mkSocket (currentTeacherId s) b (rooms s).

(** [socket.join(room)] *)
Definition socket_join (room : string) (s : Socket) : Socket :=
  mkSocket (currentTeacherId s) (isStudent s) ({[room]} ∪ rooms s).

(** [socket.leave(room)] *)
Definition socket_leave (room : string) (s : Socket) : Socket :=
  mkSocket (currentTeacherId s) (isStudent s) (rooms s ∖ {[room]}).

(** The open sockets that are in [room]. *)
Definition room_members (room : string) (socks : gmap nat Socket) : gset nat :=
  dom (filter (λ kv, room ∈ rooms kv.2) socks).

(** [students.forEach(studentSocket => studentSocket.leave(room))]; a socket
    of the set that has been closed has no rooms left to leave. *)
Definition evict (students : gset nat) (room : string)
    (socks : gmap nat Socket) : gmap nat Socket :=
  set_fold (λ studentSocket acc, alter (socket_leave room) studentSocket acc)
           socks students.

(** [socket.emit(ev)] *)
Definition socket_emit (c : nat) (ev : ServerToClientEvents) : Emission :=
  ({[c]}, ev).

(** [io.emit(ev)]: every open socket. *)
Definition io_emit (st : Relay) (ev : ServerToClientEvents) : Emission :=
  (dom (sockets st), ev).

(** [socket.broadcast.to(room).emit(ev)]: the room without the sender. *)
Definition broadcast_to (c : nat) (room : string) (st : Relay)
    (ev : ServerToClientEvents) : Emission :=
  (room_members room (sockets st) ∖ {[c]}, ev).

(** The closure variables of socket [c]. *)
Definition currentTeacherId_of (c : nat) (st : Relay) : option string :=
  sockets st !! c ≫= currentTeacherId.

Definition isStudent_of (c : nat) (st : Relay) : bool :=
  default false (isStudent <$> sockets st !! c).

Definition with_sockets (st : Relay) (socks : gmap nat Socket) : Relay :=
  mkRelay (liveTeachers st) (currentLiveTeacher st) socks (nextSocket st).

Definition with_liveTeachers (st : Relay) (lt : gmap string (gset nat)) : Relay :=
  mkRelay lt (currentLiveTeacher st) (sockets st) (nextSocket st).

(** ** The handlers of [io.on('connection', socket => ...)] *)

(** [socket.on('checkTeacherStatus', ...)] *)
Definition on_checkTeacherStatus (c : nat) (st : Relay) : Relay * list Emission :=
  match currentLiveTeacher st with
  | Some tid =>
      if truthy (Some tid) then (st, [socket_emit c (TeacherOnline tid)])
      else (st, [])
  | None => (st, [])
  end.

Definition liveError_message : string :=
  "Another teacher is currently live. Please try again later.".

(** [socket.on('startLive', teacherId => ...)] *)
Definition on_startLive (c : nat) (tid : string) (st : Relay) : Relay * list Emission :=
  if truthy (currentLiveTeacher st) then
    (st, [socket_emit c (LiveError liveError_message)])
  else
    let st' :=
      mkRelay (<[tid := ∅]> (liveTeachers st))
              (Some tid)
              (alter (socket_join (room_of tid))
                     c (alter (set_currentTeacherId (Some tid)) c (sockets st)))
              (nextSocket st) in
    (st', [io_emit st' (TeacherOnline tid)]).

(** The body of [if (liveTeachers.has(teacherId)) { ... }] shared, in the
    source as two copies of the same lines, by [stopLive] and by the teacher
    side of [disconnect]. *)
Definition tear_down (tid : string) (students : gset nat) (st : Relay)
    : Relay * list Emission :=
  let st' :=
    mkRelay (delete tid (liveTeachers st))
            (if decide (currentLiveTeacher st = Some tid) then None
             else currentLiveTeacher st)
            (evict students (room_of tid) (sockets st))
            (nextSocket st) in
  (st', [io_emit st' (TeacherOffline tid)]).

(** [socket.on('stopLive', teacherId => ...)] *)
Definition on_stopLive (c : nat) (tid : string) (st : Relay) : Relay * list Emission :=
  let '(st1, out) :=
    match liveTeachers st !! tid with
    | Some students => tear_down tid students st
    | None => (st, [])
    end in
  if decide (currentTeacherId_of c st1 = Some tid) then
    (with_sockets st1
       (alter (set_currentTeacherId None)
              c (alter (socket_leave (room_of tid)) c (sockets st1))), out)
  else (st1, out).

(** [socket.on('joinTeacherRoom', teacherId => ...)] *)
Definition on_joinTeacherRoom (c : nat) (tid : string) (st : Relay)
    : Relay * list Emission :=
  match liveTeachers st !! tid with
  | Some students =>
      (mkRelay (<[tid := students ∪ {[c]}]> (liveTeachers st))
               (currentLiveTeacher st)
               (alter (set_currentTeacherId (Some tid))
                  c (alter (set_isStudent true)
                       c (alter (socket_join (room_of tid)) c (sockets st))))
               (nextSocket st),
       [socket_emit c (TeacherOnline tid)])
  | None => (st, [])
  end.

(** [socket.on('leaveTeacherRoom', teacherId => ...)] *)
Definition on_leaveTeacherRoom (c : nat) (tid : string) (st : Relay)
    : Relay * list Emission :=
  let lt := alter (λ students, students ∖ {[c]}) tid (liveTeachers st) in
  let socks := alter (socket_leave (room_of tid)) c (sockets st) in
  let socks' :=
    if decide (currentTeacherId_of c st = Some tid)
    then alter (set_currentTeacherId None) c socks else socks in
  (mkRelay lt (currentLiveTeacher st) socks' (nextSocket st), []).

(** [socket.on('whiteboardUpdate', data => ...)] *)
Definition on_whiteboardUpdate (c : nat) (data : WhiteboardUpdate) (st : Relay)
    : Relay * list Emission :=
  (st, [broadcast_to c (room_of (teacherId data)) st (WhiteboardUpdateOut data)]).

(** [socket.on('disconnect', ...)].  Socket.IO fires the event after it has
    taken the socket out of all its rooms and out of the set of open
    sockets, so the handler runs on [delete c (sockets st)] with the closure
    variables the socket had. *)
Definition on_disconnect (c : nat) (st : Relay) : Relay * list Emission :=
  let cur := currentTeacherId_of c st in
  let student := isStudent_of c st in
  let st0 := with_sockets st (delete c (sockets st)) in
  match cur with
  | Some tid =>
      if truthy cur then
        if student then
          (with_liveTeachers st0
             (alter (λ students, students ∖ {[c]}) tid (liveTeachers st0)), [])
        else
          match liveTeachers st0 !! tid with
          | Some students => tear_down tid students st0
          | None => (st0, [])
          end
      else (st0, [])
  | None => (st0, [])
  end.

(** [io.on('connection', socket => ...)]: a fresh socket, both variables at
    their initial values, in no teacher room. *)
Definition on_connection (st : Relay) : Relay * list Emission :=
  (mkRelay (liveTeachers st) (currentLiveTeacher st)
           (<[nextSocket st := mkSocket None false ∅]> (sockets st))
           (S (nextSocket st)), []).

(** ** Events and runs *)

Inductive Event :=
  | Connection
  | Message (c : nat) (m : ClientToServerEvents)
  | Disconnect (c : nat).

Definition on_message (c : nat) (m : ClientToServerEvents) (st : Relay)
    : Relay * list Emission :=
  match m with
  | CheckTeacherStatus => on_checkTeacherStatus c st
  | StartLive tid => on_startLive c tid st
  | StopLive tid => on_stopLive c tid st
  | WhiteboardUpdateIn data => on_whiteboardUpdate c data st
  | JoinTeacherRoom tid => on_joinTeacherRoom c tid st
  | LeaveTeacherRoom tid => on_leaveTeacherRoom c tid st
  end.

(** Only an open socket delivers events. *)
Definition step (st : Relay) (ev : Event) : Relay * list Emission :=
  match ev with
  | Connection => on_connection st
  | Message c m =>
      if decide (c ∈ dom (sockets st)) then on_message c m st else (st, [])
  | Disconnect c =>
      if decide (c ∈ dom (sockets st)) then on_disconnect c st else (st, [])
  end.

Arguments step : simpl never.

Fixpoint run (evs : list Event) (st : Relay) : Relay * list Emission :=
  match evs with
  | [] => (st, [])
  | ev :: evs' =>
      let '(st1, out1) := step st ev in
      let '(st2, out2) := run evs' st1 in
      (st2, out1 ++ out2)
  end.

Definition exec (evs : list Event) : Relay := (run evs initial).1.

Inductive reachable : Relay → Prop :=
  | reachable_initial : reachable initial
  | reachable_step st ev : reachable st → reachable (step st ev).1.

(** ** Vocabulary of the statements *)

(** What holds in every state the relay can reach. *)
Record relay_inv (st : Relay) : Prop := {
  inv_open_fresh : ∀ c, c ∈ dom (sockets st) → c < nextSocket st;
  inv_student_fresh : ∀ tid students c,
    liveTeachers st !! tid = Some students → c ∈ students → c < nextSocket st;
  inv_subscriber : ∀ tid students c s,
    liveTeachers st !! tid = Some students → c ∈ students →
    sockets st !! c = Some s → room_of tid ∈ rooms s ∧ isStudent s = true;
  inv_current_live : ∀ tid,
    currentLiveTeacher st = Some tid → is_Some (liveTeachers st !! tid);
  inv_live_current : ∀ tid,
    tid ≠ "" → is_Some (liveTeachers st !! tid) → currentLiveTeacher st = Some tid
}.

(** The transport closes socket [c] after a handler has run: the socket is
    gone from the state and receives nothing. *)
Definition close (c : nat) (r : Relay * list Emission) : Relay * list Emission :=
  (with_sockets r.1 (delete c (sockets r.1)),
   (λ e : Emission, (e.1 ∖ {[c]}, e.2)) <$> r.2).

(** A sequence of [startLive] calls, each as (socket, teacher id). *)
Definition startLive_calls (calls : list (nat * string)) : list Event :=
  (λ call, Message call.1 (StartLive call.2)) <$> calls.

Definition is_teacherOnline (e : Emission) : bool :=
  match e.2 with TeacherOnline _ => true | _ => false end.

(** Socket [c] is in the room of teacher [tid]. *)
Definition in_room (tid : string) (st : Relay) (c : nat) : Prop :=
  ∃ s, sockets st !! c = Some s ∧ room_of tid ∈ rooms s.

(** Socket [c] is the teacher-of-record for [tid]: its [currentTeacherId] is
    [tid] and its [isStudent] is still [false]. *)
Definition host (tid : string) (st : Relay) (c : nat) : Prop :=
  ∃ s, sockets st !! c = Some s ∧ currentTeacherId s = Some tid ∧
       isStudent s = false.

(** The discipline the clients of the repository follow: a teacher goes live
    under a non-empty identifier, and a session is stopped by the socket that
    is its teacher-of-record (a [stopLive] for a teacher who is not live is
    harmless and allowed).  The relay itself does not enforce it. *)
Definition conforms (st : Relay) (ev : Event) : Prop :=
  match ev with
  | Message c (StartLive tid) => tid ≠ ""
  | Message c (StopLive tid) =>
      liveTeachers st !! tid = None
      ∨ (currentTeacherId_of c st = Some tid ∧ isStudent_of c st = false)
  | _ => True
  end.

Inductive conforming : Relay → Prop :=
  | conforming_initial : conforming initial
  | conforming_step st ev :
      conforming st → conforms st ev → conforming (step st ev).1.

Fixpoint run_conforms (evs : list Event) (st : Relay) : Prop :=
  match evs with
  | [] => True
  | ev :: evs' => conforms st ev ∧ run_conforms evs' (step st ev).1
  end.

(** What holds in addition in the states of conforming runs: rooms and
    subscriber sets agree up to the one teacher-of-record. *)
Record room_inv (st : Relay) : Prop := {
  rinv_base : relay_inv st;
  rinv_no_empty : liveTeachers st !! "" = None;
  rinv_subscriber : ∀ tid students c,
    liveTeachers st !! tid = Some students → c ∈ students →
    ∃ s, sockets st !! c = Some s ∧ currentTeacherId s = Some tid;
  rinv_room_live : ∀ tid c,
    in_room tid st c → is_Some (liveTeachers st !! tid);
  rinv_one_guest : ∀ tid students c1 c2,
    liveTeachers st !! tid = Some students →
    in_room tid st c1 → c1 ∉ students →
    in_room tid st c2 → c2 ∉ students → c1 = c2;
  rinv_host : ∀ tid c, host tid st c → in_room tid st c
}.

(** A run in which socket 1 stops the session socket 0 started, and socket 2
    then goes live under the same identifier: socket 0 is still in the room. *)
Definition stale_host : list Event :=
  [Connection; Connection; Connection;
   Message 0 (StartLive "t1"); Message 1 (StopLive "t1");
   Message 2 (StartLive "t1")].

End Relay.

Import Relay.

#[local] Set Warnings "-clear-no-such-hyp".

(** * The clients of the relay

    The two whiteboard components are the callers of the handlers: what
    they emit on the socket is embedded here, the rest of the components
    (canvas, recording, the HTTP calls) is not. *)

(** ** StudentWhiteboard *)
Module StudentWhiteboard.

(** The effect that registers the listeners ends with
    [socket.emit('checkTeacherStatus')]: it runs when the component mounts
    and again when one of its dependencies changes.  [handleConnect] emits
    the same on every [connect]. *)
Definition on_mount : list ClientToServerEvents := [CheckTeacherStatus].

(** What the listeners send on the socket when a message of the relay
    arrives.  [handleTeacherOnline] answers every [teacherOnline] with
    [joinTeacherRoom] for the identifier it carries; [handleTeacherOffline]
    and [handleWhiteboardUpdate] send nothing on the socket, and [liveError]
    has no listener. *)
Definition listeners (ev : ServerToClientEvents) : list ClientToServerEvents :=
  match ev with
  | TeacherOnline tid => [JoinTeacherRoom tid]
  | TeacherOffline _ => []
  | WhiteboardUpdateOut _ => []
  | LiveError _ => []
  end.

(** The relay handles message [m] of socket [c], on which the component
    runs, and the listeners answer what the relay sends to [c]. *)
Definition turn (c : nat) (m : ClientToServerEvents) (st : Relay)
    : Relay * list ClientToServerEvents :=
  let '(st', out) := step st (Message c m) in
  (st', out ≫= λ e : Emission, if decide (c ∈ e.1) then listeners e.2 else []).

(** [n] turns on the messages of [c] that are in flight, oldest first; the
    answers of the listeners queue behind them.  Nothing else happens in
    between: no other socket sends, and what the effect emits when it runs
    again (a further [checkTeacherStatus]) is left out; it would add
    messages to the ones in flight and take none back. *)
Fixpoint exchange (n : nat) (c : nat) (pending : list ClientToServerEvents)
    (st : Relay) : Relay * list ClientToServerEvents :=
  match n, pending with
  | S n', m :: pending' =>
      let '(st', answers) := turn c m st in
      exchange n' c (pending' ++ answers) st'
  | _, _ => (st, pending)
  end.

End StudentWhiteboard.

(** ** TeacherWhiteboard *)
Module TeacherWhiteboard.

(** [confirmStartLive]: [userId] is [localStorage.getItem('userId')] and
    [canvas] the JSON of the paths the canvas exports, [None] when
    [canvasRef.current] is null.  The result is the component's [isLive]
    afterwards and what is emitted. *)
Definition confirmStartLive (userId : option string) (canvas : option string)
    (isLive : bool) : bool * list ClientToServerEvents :=
  match userId, canvas with
  | Some uid, Some paths =>
      if truthy userId then
        (true, [StartLive uid; WhiteboardUpdateIn (mkWhiteboardUpdate uid paths)])
      else (isLive, [])
  | _, _ => (isLive, [])
  end.

(** The cleanup of the effect that registers the listeners, with the
    [userId] the effect read and the [isLive] of the render it belongs to. *)
Definition cleanup (userId : option string) (isLive : bool)
    : list ClientToServerEvents :=
  match userId with
  | Some uid => if truthy userId && isLive then [StopLive uid] else []
  | None => []
  end.

(** [handleLiveError], the component's only listener for a message of the
    relay, sets [isLive] to false.  [isLive] is a dependency of the effect:
    when it changes, React runs the cleanup of the previous render and sets
    the effect up again, which emits nothing. *)
Definition handleLiveError (userId : option string) (isLive : bool)
    : bool * list ClientToServerEvents :=
  (false, if isLive then cleanup userId isLive else []).

End TeacherWhiteboard.

(** The student components on the sockets [cs] answer the [teacherOnline]
    broadcast for [tid], one after the other. *)
Definition students_answer (tid : string) (cs : list nat) : list Event :=
  cs ≫= λ r, Message r <$> StudentWhiteboard.listeners (TeacherOnline tid).

(** The events whose handlers assign nothing: [checkTeacherStatus] and
    [whiteboardUpdate]. *)
Definition is_readonly (ev : Event) : bool :=
  match ev with
  | Message _ CheckTeacherStatus => true
  | Message _ (WhiteboardUpdateIn _) => true
  | _ => false
  end.

(** The event is a [startLive] that the relay accepts in [st]: it answers
    with [teacherOnline], not with [liveError]. *)
Definition goes_live (st : Relay) (ev : Event) : bool :=
  match ev with
  | Message _ (StartLive _) => existsb is_teacherOnline (step st ev).2
  | _ => false
  end.

(** How many [startLive] calls of a run are accepted. *)
Fixpoint accepted_startLives (evs : list Event) (st : Relay) : nat :=
  match evs with
  | [] => 0
  | ev :: evs' =>
      (if goes_live st ev then 1 else 0) + accepted_startLives evs' (step st ev).1
  end.

(** Events that end no session, with a non-empty identifier if they start
    one: anything but [stopLive], a disconnect and [startLive] for the empty
    string. *)
Definition ends_no_session (ev : Event) : bool :=
  match ev with
  | Message _ (StopLive _) => false
  | Disconnect _ => false
  | Message _ (StartLive tid) => negb (String.eqb tid EmptyString)
  | _ => true
  end.

(** * Facts about the primitives *)

Lemma room_of_inj (t1 t2 : string) : room_of t1 = room_of t2 → t1 = t2.
Proof. unfold room_of. simpl. intros H. by simplify_eq. Qed.

Lemma room_of_ne t1 t2 : t1 ≠ t2 → room_of t1 ≠ room_of t2.
Proof. intros Hne ?%room_of_inj. done. Qed.

Lemma truthy_Some (tid : string) : truthy (Some tid) = true ↔ tid ≠ "".
Proof. destruct tid; simpl; split; naive_solver. Qed.

Lemma lookup_alter_fmap {A} (f : A → A) (m : gmap nat A) (c c' : nat) :
  alter f c m !! c' = (if decide (c = c') then f else id) <$> m !! c'.
Proof.
  rewrite lookup_alter. case_decide; [by subst|]. by rewrite option_fmap_id.
Qed.

Lemma alter_alter_insert {A} (f g : A → A) (m : gmap nat A) c x :
  m !! c = Some x → alter f c (alter g c m) = <[c := f (g x)]> m.
Proof.
  intros Hx. apply map_eq. intros c'. rewrite !lookup_alter_fmap, lookup_insert.
  case_decide; [subst; by rewrite Hx|]. by destruct (m !! c').
Qed.

Lemma alter_insert_Some {A} (f : A → A) (m : gmap string A) k x :
  m !! k = Some x → alter f k m = <[k := f x]> m.
Proof.
  intros Hx. apply map_eq. intros k'. rewrite lookup_alter, lookup_insert.
  case_decide; [subst; by rewrite Hx|done].
Qed.

Lemma evict_lookup (students : gset nat) (room : string)
    (socks : gmap nat Socket) (c : nat) :
  evict students room socks !! c
  = (λ s, if decide (c ∈ students) then socket_leave room s else s)
      <$> socks !! c.
Proof.
  unfold evict.
  refine (set_fold_ind_L
    (λ (acc : gmap nat Socket) (X : gset nat),
       acc !! c = (λ s, if decide (c ∈ X) then socket_leave room s else s)
                    <$> socks !! c) _ socks _ _ students).
  - destruct (socks !! c) as [s|]; simpl; [|done].
    by rewrite decide_False by set_solver.
  - intros x X acc Hx IH. rewrite lookup_alter.
    destruct (decide (x = c)) as [->|Hxc].
    + rewrite IH. destruct (socks !! c) as [s|]; simpl; [|done].
      rewrite decide_False by done. rewrite decide_True by set_solver. done.
    + rewrite IH. destruct (socks !! c) as [s|]; simpl; [|done].
      destruct (decide (c ∈ X)).
      * rewrite decide_True by set_solver. done.
      * rewrite decide_False by set_solver. done.
Qed.

Lemma dom_evict (students : gset nat) (room : string) (socks : gmap nat Socket) :
  dom (evict students room socks) = dom socks.
Proof.
  apply set_eq. intros c. rewrite !elem_of_dom, evict_lookup.
  by rewrite fmap_is_Some.
Qed.

Lemma evict_delete (students : gset nat) (room : string)
    (socks : gmap nat Socket) (c : nat) :
  evict students room (delete c socks) = delete c (evict students room socks).
Proof.
  apply map_eq. intros c'. rewrite evict_lookup.
  destruct (decide (c = c')) as [->|Hne].
  - by rewrite !lookup_delete_eq.
  - by rewrite !lookup_delete_ne, evict_lookup by done.
Qed.

Lemma elem_of_room_members (room : string) (socks : gmap nat Socket) (c : nat) :
  c ∈ room_members room socks ↔ ∃ s, socks !! c = Some s ∧ room ∈ rooms s.
Proof.
  unfold room_members. rewrite elem_of_dom. unfold is_Some.
  setoid_rewrite map_lookup_filter_Some. naive_solver.
Qed.

(** A room holds open sockets only. *)
Lemma room_members_open (room : string) (socks : gmap nat Socket) :
  room_members room socks ⊆ dom socks.
Proof.
  intros c [s [Hs _]]%elem_of_room_members. apply elem_of_dom. eauto.
Qed.

Lemma room_members_delete room socks c :
  room_members room (delete c socks) = room_members room socks ∖ {[c]}.
Proof. unfold room_members. by rewrite map_filter_delete, dom_delete_L. Qed.

Lemma step_message st c m :
  c ∈ dom (sockets st) → step st (Message c m) = on_message c m st.
Proof. intros Hc. unfold step. by rewrite decide_True. Qed.

Lemma step_disconnect st c :
  c ∈ dom (sockets st) → step st (Disconnect c) = on_disconnect c st.
Proof. intros Hc. unfold step. by rewrite decide_True. Qed.

Lemma reachable_run evs st : reachable st → reachable (run evs st).1.
Proof.
  revert st. induction evs as [|ev evs IH]; intros st Hst; simpl; [done|].
  pose proof (reachable_step _ ev Hst) as Hst1.
  destruct (step st ev) as [st1 out1]. simpl in Hst1.
  specialize (IH _ Hst1). by destruct (run evs st1).
Qed.

Lemma reachable_exec evs : reachable (exec evs).
Proof. apply reachable_run, reachable_initial. Qed.

(** Rewriting of lookups in the socket table after a handler. *)
Ltac lookups :=
  repeat match goal with
  | H : context [ alter _ _ _ !! _ ] |- _ => rewrite lookup_alter_fmap in H
  | H : context [ <[_:=_]> _ !! _ ] |- _ => rewrite lookup_insert in H
  | H : context [ delete _ _ !! _ ] |- _ => rewrite lookup_delete in H
  | H : context [ evict _ _ _ !! _ ] |- _ => rewrite evict_lookup in H
  | H : context [ dom (alter _ _ _) ] |- _ => rewrite dom_alter_L in H
  | H : context [ dom (evict _ _ _) ] |- _ => rewrite dom_evict in H
  | |- context [ alter _ _ _ !! _ ] => rewrite lookup_alter_fmap
  | |- context [ <[_:=_]> _ !! _ ] => rewrite lookup_insert
  | |- context [ delete _ _ !! _ ] => rewrite lookup_delete
  | |- context [ evict _ _ _ !! _ ] => rewrite evict_lookup
  | |- context [ dom (alter _ _ _) ] => rewrite dom_alter_L
  | |- context [ dom (evict _ _ _) ] => rewrite dom_evict
  end.

Ltac socket_cases :=
  repeat match goal with
  | H : context [ _ <$> sockets ?st !! ?c ] |- _ =>
      destruct (sockets st !! c) eqn:?; simpl in H
  end;
  repeat case_decide; simplify_eq/=.

(** * The invariant of reachable states *)

Lemma on_startLive_inv c tid st :
  relay_inv st → relay_inv (on_startLive c tid st).1.
Proof.
  intros [I1 I2 I3 I4 I5]. unfold on_startLive.
  destruct (truthy (currentLiveTeacher st)) eqn:Ht; simpl; [by split|].
  split; simpl.
  - intros c'. lookups. auto.
  - intros tid' S c'. lookups. case_decide; intros; simplify_eq.
    + set_solver.
    + eauto.
  - intros tid' S c' s. lookups. intros HS Hc Hs.
    socket_cases; try set_solver.
  - intros tid' [= <-]. lookups. by rewrite decide_True.
  - intros tid' Hne. lookups. case_decide; [by subst|].
    intros Hlive. apply (I5 _ Hne) in Hlive. rewrite Hlive in Ht.
    apply truthy_Some in Hne. congruence.
Qed.

Lemma tear_down_inv tid students st :
  liveTeachers st !! tid = Some students →
  relay_inv st → relay_inv (tear_down tid students st).1.
Proof.
  intros Hlive [I1 I2 I3 I4 I5]. unfold tear_down. split; simpl.
  - intros c'. lookups. auto.
  - intros tid' S c'. lookups. case_decide; [done|]. eauto.
  - intros tid' S c' s. lookups. case_decide; [done|].
    intros HS Hc Hs. socket_cases.
    + destruct (I3 _ _ _ _ HS Hc Heqo) as [Hr ?]. split; [|done].
      apply elem_of_difference. split; [done|].
      intros ->%elem_of_singleton%room_of_inj. done.
    + eauto.
  - intros tid'. case_decide; [done|]. intros Hcur. lookups.
    rewrite decide_False by congruence. auto.
  - intros tid' Hne. lookups. case_decide; [by intros []|].
    intros Hl. specialize (I5 _ Hne Hl). rewrite decide_False by congruence. done.
Qed.

Lemma on_stopLive_inv c tid st :
  relay_inv st → relay_inv (on_stopLive c tid st).1.
Proof.
  intros Hinv. unfold on_stopLive.
  destruct (liveTeachers st !! tid) as [students|] eqn:Hlive.
  - pose proof (tear_down_inv _ _ _ Hlive Hinv) as Hinv'.
    assert (liveTeachers (tear_down tid students st).1 !! tid = None) as Hgone
      by (simpl; apply lookup_delete_eq).
    destruct (tear_down tid students st) as [st1 out]; simpl in *.
    case_decide; simpl; [|done].
    destruct Hinv' as [I1 I2 I3 I4 I5]. split; simpl; try done.
    + intros c'. lookups. auto.
    + intros tid' S c' s HS Hc. lookups. intros Hs. socket_cases; [|eauto].
      destruct (I3 _ _ _ _ HS Hc Heqo). split; [|done].
      apply elem_of_difference. split; [done|].
      intros ->%elem_of_singleton%room_of_inj. congruence.
  - case_decide; simpl; [|done].
    destruct Hinv as [I1 I2 I3 I4 I5]. split; simpl; try done.
    + intros c'. lookups. auto.
    + intros tid' S c' s HS Hc. lookups. intros Hs. socket_cases; [|eauto].
      destruct (I3 _ _ _ _ HS Hc Heqo). split; [|done].
      apply elem_of_difference. split; [done|].
      intros ->%elem_of_singleton%room_of_inj. congruence.
Qed.

Lemma on_joinTeacherRoom_inv c tid st :
  c ∈ dom (sockets st) →
  relay_inv st → relay_inv (on_joinTeacherRoom c tid st).1.
Proof.
  intros Hopen [I1 I2 I3 I4 I5]. unfold on_joinTeacherRoom.
  destruct (liveTeachers st !! tid) as [students|] eqn:Hlive; simpl; [|by split].
  split; simpl.
  - intros c'. lookups. auto.
  - intros tid' S c'. lookups. case_decide; intros; simplify_eq; [|eauto].
    set_unfold. naive_solver.
  - intros tid' S c' s. lookups. intros HS Hc Hs.
    socket_cases; try set_solver.
  - intros tid' Hcur. lookups. case_decide; eauto.
  - intros tid' Hne. lookups. case_decide; [subst|]; eauto.
Qed.

Lemma on_leaveTeacherRoom_inv c tid st :
  relay_inv st → relay_inv (on_leaveTeacherRoom c tid st).1.
Proof.
  intros [I1 I2 I3 I4 I5]. unfold on_leaveTeacherRoom. split; simpl.
  - intros c'. case_decide; lookups; auto.
  - intros tid' S c'. rewrite lookup_alter. case_decide; [subst|]; eauto.
    destruct (liveTeachers st !! tid') eqn:?; intros; simplify_eq/=.
    set_unfold. naive_solver.
  - intros tid' S c' s. rewrite lookup_alter. intros HS Hc Hs.
    assert (∃ S0, liveTeachers st !! tid' = Some S0 ∧ c' ∈ S0 ∧
                  (tid = tid' → c' ≠ c)) as (S0 & HS0 & Hc0 & Hne).
    { destruct (decide (tid = tid')) as [<-|Hd]; [|by eauto 6].
      destruct (liveTeachers st !! tid) eqn:?; simplify_eq/=.
      set_unfold. naive_solver. }
    clear HS Hc.
    assert (∃ s0, sockets st !! c' = Some s0 ∧ isStudent s = isStudent s0 ∧
              (c' ≠ c → rooms s = rooms s0) ∧
              rooms s0 ∖ {[room_of tid]} ⊆ rooms s) as (s0 & Hs0 & Hst & Hr1 & Hr2).
    { case_decide; lookups; socket_cases; eexists; (split; [done|]);
        simpl; set_solver. }
    destruct (I3 _ _ _ _ HS0 Hc0 Hs0) as [Hin Hstud].
    split; [|congruence].
    destruct (decide (tid = tid')) as [->|Hd].
    + rewrite Hr1 by auto. done.
    + apply Hr2. apply elem_of_difference. split; [done|].
      intros ->%elem_of_singleton%room_of_inj. done.
  - intros tid' Hcur. rewrite lookup_alter. case_decide; [subst|]; eauto.
    rewrite fmap_is_Some. eauto.
  - intros tid' Hne. rewrite lookup_alter. case_decide; [subst|]; eauto.
    rewrite fmap_is_Some. eauto.
Qed.

Lemma close_inv c st :
  relay_inv st → relay_inv (with_sockets st (delete c (sockets st))).
Proof.
  intros [I1 I2 I3 I4 I5]. split; simpl; try done.
  - intros c'. rewrite dom_delete_L. set_solver.
  - intros tid' S c' s HS Hc. lookups. case_decide; [done|]. eauto.
Qed.

Lemma unsubscribe_inv c tid st :
  relay_inv st →
  relay_inv (with_liveTeachers st
               (alter (λ students, students ∖ {[c]}) tid (liveTeachers st))).
Proof.
  intros [I1 I2 I3 I4 I5]. split; simpl; try done.
  - intros tid' S c'. rewrite lookup_alter.
    destruct (decide (tid = tid')) as [<-|Hd]; [|by eauto].
    destruct (liveTeachers st !! tid) eqn:?; intros; simplify_eq/=.
    set_unfold. naive_solver.
  - intros tid' S c' s. rewrite lookup_alter.
    destruct (decide (tid = tid')) as [<-|Hd]; [|by eauto].
    destruct (liveTeachers st !! tid) eqn:?; intros; simplify_eq/=.
    set_unfold. naive_solver.
  - intros tid' Hcur. rewrite lookup_alter. case_decide; [subst|]; eauto.
    rewrite fmap_is_Some. eauto.
  - intros tid' Hne. rewrite lookup_alter. case_decide; [subst|]; eauto.
    rewrite fmap_is_Some. eauto.
Qed.

Lemma on_disconnect_inv c st :
  relay_inv st → relay_inv (on_disconnect c st).1.
Proof.
  intros Hinv%(close_inv c). unfold on_disconnect.
  destruct (currentTeacherId_of c st) as [tid|]; [|done].
  destruct (truthy (Some tid)); [|done].
  destruct (isStudent_of c st).
  - by apply unsubscribe_inv.
  - destruct (liveTeachers _ !! tid) eqn:Hlive; [|done].
    by apply tear_down_inv.
Qed.

Lemma on_connection_inv st :
  relay_inv st → relay_inv (on_connection st).1.
Proof.
  intros [I1 I2 I3 I4 I5]. split; simpl; try done.
  - intros c'. rewrite dom_insert_L.
    intros [->%elem_of_singleton|?%I1]%elem_of_union; lia.
  - intros tid' S c' HS Hc. specialize (I2 _ _ _ HS Hc). lia.
  - intros tid' S c' s HS Hc. lookups. case_decide; [|by eauto].
    subst c'. specialize (I2 _ _ _ HS Hc). lia.
Qed.

Lemma step_inv st ev : relay_inv st → relay_inv (step st ev).1.
Proof.
  intros Hinv. destruct ev as [|c m|c]; unfold step.
  - by apply on_connection_inv.
  - case_decide; [|done]. destruct m; simpl; try done.
    + unfold on_checkTeacherStatus.
      destruct (currentLiveTeacher st); [|done]. by destruct (truthy _).
    + by apply on_startLive_inv.
    + by apply on_stopLive_inv.
    + by apply on_joinTeacherRoom_inv.
    + by apply on_leaveTeacherRoom_inv.
  - case_decide; [|done]. by apply on_disconnect_inv.
Qed.

Lemma initial_inv : relay_inv initial.
Proof.
  split; simpl; try done; intros *; rewrite ?lookup_empty; try done.

Qed.

Lemma reachable_inv st : reachable st → relay_inv st.
Proof. induction 1; [apply initial_inv|by apply step_inv]. Qed.

(** A subscriber that is still open is in the teacher's room. *)
Lemma subscriber_in_room st tid students r :
  reachable st → liveTeachers st !! tid = Some students →
  r ∈ students → r ∈ dom (sockets st) →
  r ∈ room_members (room_of tid) (sockets st).
Proof.
  intros Hst Hlive Hr [s Hs]%elem_of_dom.
  apply elem_of_room_members. exists s. split; [done|].
  by apply (inv_subscriber _ (reachable_inv _ Hst) _ _ _ _ Hlive Hr Hs).
Qed.

(** Among the non-empty identifiers at most one has a session. *)
Lemma live_teacher_unique st tid1 tid2 :
  reachable st → tid1 ≠ "" → tid2 ≠ "" →
  is_Some (liveTeachers st !! tid1) → is_Some (liveTeachers st !! tid2) →
  tid1 = tid2.
Proof.
  intros Hinv%reachable_inv H1 H2 Hl1 Hl2.
  pose proof (inv_live_current _ Hinv _ H1 Hl1).
  pose proof (inv_live_current _ Hinv _ H2 Hl2). congruence.
Qed.

(** * Conforming runs: the room is the subscriber set plus the teacher *)

Lemma room_inv_idle st :
  room_inv st → truthy (currentLiveTeacher st) = false →
  ∀ tid, liveTeachers st !! tid = None.
Proof.
  intros [Hb H0 _ _ _ _] Ht tid.
  destruct (decide (tid = "")) as [->|Hne]; [done|].
  destruct (liveTeachers st !! tid) eqn:Hl; [|done].
  rewrite (inv_live_current _ Hb tid Hne) in Ht by eauto.
  apply truthy_Some in Hne. congruence.
Qed.

Lemma host_not_subscriber st tid tid' students c :
  relay_inv st → host tid st c →
  liveTeachers st !! tid' = Some students → c ∉ students.
Proof.
  intros Hb (s & Hs & _ & Hstud) Hl Hc.
  destruct (inv_subscriber _ Hb _ _ _ _ Hl Hc Hs). congruence.
Qed.

(** On a conforming run a live teacher has one teacher-of-record at most. *)
Lemma host_unique st tid c1 c2 :
  room_inv st → host tid st c1 → host tid st c2 → c1 = c2.
Proof.
  intros Hinv Hh1 Hh2.
  pose proof (rinv_host _ Hinv _ _ Hh1) as Hin1.
  pose proof (rinv_host _ Hinv _ _ Hh2) as Hin2.
  destruct (rinv_room_live _ Hinv _ _ Hin1) as [students Hl].
  apply (rinv_one_guest _ Hinv tid students); try done.
  - by apply (host_not_subscriber st tid tid _ _ (rinv_base _ Hinv)).
  - by apply (host_not_subscriber st tid tid _ _ (rinv_base _ Hinv)).
Qed.

Lemma guest_is_host st tid students c r :
  room_inv st → liveTeachers st !! tid = Some students →
  host tid st c → in_room tid st r → r ∉ students → r = c.
Proof.
  intros Hinv Hl Hh Hin Hr.
  apply (rinv_one_guest _ Hinv tid students); try done.
  - by apply rinv_host.
  - by apply (host_not_subscriber st tid tid _ _ (rinv_base _ Hinv)).
Qed.

Lemma on_startLive_room_inv c tid st :
  tid ≠ "" → room_inv st → room_inv (on_startLive c tid st).1.
Proof.
  intros Hne Hinv.
  pose proof (on_startLive_inv c tid st (rinv_base _ Hinv)) as Hb'.
  revert Hb'. unfold on_startLive.
  destruct (truthy (currentLiveTeacher st)) eqn:Ht; simpl; [done|].
  pose proof (room_inv_idle _ Hinv Ht) as Hidle.
  destruct Hinv as [Hb H0 H1 H2 H3 H4]. intros Hb'.
  assert (∀ t r s, sockets st !! r = Some s → room_of t ∉ rooms s) as Hempty.
  { intros t r s Hs Hin. destruct (H2 t r) as [? Hl]; [by exists s|].
    by rewrite Hidle in Hl. }
  assert (∀ t r s, sockets st !! r = Some s →
            ¬ (currentTeacherId s = Some t ∧ isStudent s = false)) as Hnohost.
  { intros t r s Hs [Hcur Hstud].
    destruct (H4 t r) as (s' & Hs' & Hin); [by exists s|].
    by apply (Hempty t r s'). }
  split; unfold in_room, host; simpl; try done.
  - rewrite lookup_insert_ne; done.
  - intros t S r. rewrite lookup_insert, Hidle. case_decide; [|done].
    intros [= <-]. set_solver.
  - intros t r (s & Hs & Hin). lookups.
    destruct (decide (tid = t)) as [->|Hd%room_of_ne]; [by eauto|].
    exfalso. destruct (sockets st !! r) as [s0|] eqn:Hs0; [|done].
    specialize (Hempty t r s0 Hs0).
    repeat case_decide; simplify_eq/=; set_solver.
  - intros t S c1 c2. rewrite lookup_insert, Hidle. case_decide; [|done].
    intros [= <-] (s1 & Hs1 & Hin1) _ (s2 & Hs2 & Hin2) _. subst t.
    lookups.
    destruct (sockets st !! c1) as [s10|] eqn:Hs10; [|done].
    destruct (sockets st !! c2) as [s20|] eqn:Hs20; [|done].
    pose proof (Hempty tid _ _ Hs10). pose proof (Hempty tid _ _ Hs20).
    repeat case_decide; simplify_eq/=; try done; set_solver.
  - intros t r (s & Hs & Hcur & Hstud). exists s. split; [done|]. lookups.
    destruct (sockets st !! r) as [s0|] eqn:Hs0; [|done].
    specialize (Hnohost t _ _ Hs0).
    repeat case_decide; simplify_eq/=; [set_solver|]. by destruct Hnohost.
Qed.

Lemma on_stopLive_live st c tid students :
  liveTeachers st !! tid = Some students →
  on_stopLive c tid st
  = (mkRelay (delete tid (liveTeachers st))
       (if decide (currentLiveTeacher st = Some tid) then None
        else currentLiveTeacher st)
       (if decide (currentTeacherId_of c st = Some tid)
        then alter (set_currentTeacherId None) c
               (alter (socket_leave (room_of tid)) c
                  (evict students (room_of tid) (sockets st)))
        else evict students (room_of tid) (sockets st))
       (nextSocket st),
     [(dom (sockets st), TeacherOffline tid)]).
Proof.
  intros Hlive. unfold on_stopLive. rewrite Hlive.
  unfold tear_down, io_emit, currentTeacherId_of. simpl.
  rewrite dom_evict, evict_lookup.
  destruct (sockets st !! c) as [s|]; simpl; [|done].
  destruct (decide (c ∈ students)); simpl; by case_decide.
Qed.

Lemma on_stopLive_host_room_inv c tid st :
  host tid st c → room_inv st → room_inv (on_stopLive c tid st).1.
Proof.
  intros Hhost Hinv.
  pose proof (on_stopLive_inv c tid st (rinv_base _ Hinv)) as Hb'.
  destruct (rinv_room_live _ Hinv _ _ (rinv_host _ Hinv _ _ Hhost))
    as [students Hlive].
  pose proof (λ r, guest_is_host st tid students c r Hinv Hlive Hhost) as Hguest.
  pose proof (host_not_subscriber st tid tid _ _ (rinv_base _ Hinv) Hhost Hlive)
    as Hcs.
  revert Hb'. rewrite (on_stopLive_live _ _ _ _ Hlive).
  destruct Hhost as (sc & Hsc & Hcur & Hstud).
  unfold currentTeacherId_of. rewrite Hsc. simpl.
  destruct (decide (currentTeacherId sc = Some tid)); [|done]. intros Hb'.
  set (socks' := alter (set_currentTeacherId None) c
                   (alter (socket_leave (room_of tid)) c
                      (evict students (room_of tid) (sockets st)))).
  assert (∀ r s', socks' !! r = Some s' →
    ∃ s0, sockets st !! r = Some s0 ∧ isStudent s' = isStudent s0 ∧
      (∀ t, room_of t ∈ rooms s' → room_of t ∈ rooms s0 ∧ t ≠ tid) ∧
      (∀ t, t ≠ tid → room_of t ∈ rooms s0 → room_of t ∈ rooms s') ∧
      (r ≠ c → currentTeacherId s' = currentTeacherId s0) ∧
      (r = c → currentTeacherId s' = None)) as Hback.
  { intros r s' Hs'. unfold socks' in Hs'. lookups.
    destruct (sockets st !! r) as [s0|] eqn:Hs0; [|done].
    exists s0. split; [done|].
    assert (room_of tid ∈ rooms s0 → r ∉ students → r = c) as Hg.
    { intros ??. apply Hguest; [by exists s0|done]. }
    repeat case_decide; simplify_eq/=; split_and!; try done;
      try (intros t [Hin Hnin%not_elem_of_singleton]%elem_of_difference;
           split; [done|]; by intros ->);
      try (intros t Hin; split; [done|]; intros ->; naive_solver);
      try (intros t Hne%room_of_ne Hin; set_solver).
    all: intros t [[Hin Hnin%not_elem_of_singleton]%elem_of_difference _]%elem_of_difference;
           split; [done|]; by intros ->. }
  assert (∀ r s0, sockets st !! r = Some s0 → is_Some (socks' !! r)) as Hfwd.
  { intros r s0 Hs0. unfold socks'. lookups. rewrite Hs0. simpl. eauto. }
  destruct Hinv as [Hb H0 H1 H2 H3 H4].
  split; unfold in_room, host; simpl; fold socks'; try done.
  - rewrite lookup_delete_ne; [done|]. intros Heq. subst tid. congruence.
  - intros t S r. rewrite lookup_delete.
    destruct (decide (tid = t)) as [->|Hd]; [done|]. intros Hl Hr.
    destruct (H1 _ _ _ Hl Hr) as (s0 & Hs0 & Hcur0).
    destruct (Hfwd _ _ Hs0) as [s' Hs']. exists s'. split; [done|].
    destruct (Hback _ _ Hs') as (s0' & ? & Hst & _ & _ & Hc1 & _).
    simplify_eq. rewrite Hc1; [done|]. intros ->.
    destruct (inv_subscriber _ Hb _ _ _ _ Hl Hr Hs0). congruence.
  - intros t r (s' & Hs' & Hin).
    destruct (Hback _ _ Hs') as (s0 & Hs0 & _ & Hr1 & _).
    destruct (Hr1 _ Hin) as [Hin0 Hne]. rewrite lookup_delete_ne by done.
    apply (H2 t r). by exists s0.
  - intros t S c1 c2. rewrite lookup_delete.
    destruct (decide (tid = t)) as [->|Hd]; [done|].
    intros Hl (s1 & Hs1 & Hin1) Hn1 (s2 & Hs2 & Hin2) Hn2.
    destruct (Hback _ _ Hs1) as (s10 & Hs10 & _ & Hr1 & _).
    destruct (Hback _ _ Hs2) as (s20 & Hs20 & _ & Hr2 & _).
    apply (H3 t S); try done.
    + exists s10. split; [done|]. by apply Hr1.
    + exists s20. split; [done|]. by apply Hr2.
  - intros t r (s' & Hs' & Hcur' & Hstud'). exists s'. split; [done|].
    destruct (Hback _ _ Hs') as (s0 & Hs0 & Hst & _ & Hr2 & Hc1 & Hc2).
    destruct (decide (r = c)) as [->|Hrc]; [rewrite Hc2 in Hcur'; done|].
    rewrite Hc1 in Hcur' by done.
    assert (host t st r) as Hh by (exists s0; split_and!; congruence).
    destruct (H4 _ _ Hh) as (s0' & ? & Hin0). simplify_eq.
    apply Hr2; [|done]. intros ->. apply Hrc.
    apply Hguest; [by exists s0|].
    apply (host_not_subscriber st tid tid _ _ Hb Hh Hlive).
Qed.

Lemma on_stopLive_idle_room_inv c tid st :
  liveTeachers st !! tid = None →
  room_inv st → room_inv (on_stopLive c tid st).1.
Proof.
  intros Hidle Hinv.
  pose proof (on_stopLive_inv c tid st (rinv_base _ Hinv)) as Hb'.
  revert Hb'. unfold on_stopLive. rewrite Hidle.
  destruct (decide (currentTeacherId_of c st = Some tid)) as [Hcur|]; [|done].
  simpl. intros Hb'.
  set (socks' := alter (set_currentTeacherId None) c
                   (alter (socket_leave (room_of tid)) c (sockets st))).
  destruct Hinv as [Hb H0 H1 H2 H3 H4].
  assert (∀ r s0, sockets st !! r = Some s0 → room_of tid ∉ rooms s0) as Hout.
  { intros r s0 Hs0 Hin. destruct (H2 tid r) as [? Hl]; [by exists s0|].
    congruence. }
  assert (∀ r s', socks' !! r = Some s' →
    ∃ s0, sockets st !! r = Some s0 ∧ isStudent s' = isStudent s0 ∧
      rooms s' = rooms s0 ∧
      (r ≠ c → currentTeacherId s' = currentTeacherId s0) ∧
      (r = c → currentTeacherId s' = None ∧ currentTeacherId s0 = Some tid))
    as Hback.
  { intros r s' Hs'. unfold socks' in Hs'. lookups.
    destruct (sockets st !! r) as [s0|] eqn:Hs0; [|done].
    exists s0. split; [done|]. pose proof (Hout _ _ Hs0).
    unfold currentTeacherId_of in Hcur.
    repeat case_decide; simplify_eq/=; split_and!; try done.
    - set_solver.
    - rewrite Hs0 in Hcur. done. }
  assert (∀ r s0, sockets st !! r = Some s0 → is_Some (socks' !! r)) as Hfwd.
  { intros r s0 Hs0. unfold socks'. lookups. rewrite Hs0. simpl. eauto. }
  split; unfold in_room, host; simpl; fold socks'; try done.
  - intros t S r Hl Hr.
    destruct (H1 _ _ _ Hl Hr) as (s0 & Hs0 & Hcur0).
    destruct (Hfwd _ _ Hs0) as [s' Hs']. exists s'. split; [done|].
    destruct (Hback _ _ Hs') as (s0' & ? & _ & _ & Hc1 & Hc2). simplify_eq.
    destruct (decide (r = c)) as [->|Hrc]; [|by rewrite Hc1].
    destruct (Hc2 eq_refl) as [_ ?]. congruence.
  - intros t r (s' & Hs' & Hin).
    destruct (Hback _ _ Hs') as (s0 & Hs0 & _ & Hr & _).
    apply (H2 t r). exists s0. by rewrite <-Hr.
  - intros t S c1 c2 Hl (s1 & Hs1 & Hin1) Hn1 (s2 & Hs2 & Hin2) Hn2.
    destruct (Hback _ _ Hs1) as (s10 & Hs10 & _ & Hr1 & _).
    destruct (Hback _ _ Hs2) as (s20 & Hs20 & _ & Hr2 & _).
    apply (H3 t S); try done.
    + exists s10. by rewrite <-Hr1.
    + exists s20. by rewrite <-Hr2.
  - intros t r (s' & Hs' & Hcur' & Hstud'). exists s'. split; [done|].
    destruct (Hback _ _ Hs') as (s0 & Hs0 & Hst & Hr & Hc1 & Hc2).
    destruct (decide (r = c)) as [->|Hrc].
    { destruct (Hc2 eq_refl) as [? _]. congruence. }
    rewrite Hc1 in Hcur' by done.
    assert (host t st r) as Hh by (exists s0; split_and!; congruence).
    destruct (H4 _ _ Hh) as (s0' & ? & Hin0). simplify_eq. by rewrite Hr.
Qed.

Lemma on_joinTeacherRoom_room_inv c tid st :
  c ∈ dom (sockets st) →
  room_inv st → room_inv (on_joinTeacherRoom c tid st).1.
Proof.
  intros Hc Hinv.
  pose proof (on_joinTeacherRoom_inv c tid st Hc (rinv_base _ Hinv)) as Hb'.
  revert Hb'. unfold on_joinTeacherRoom.
  destruct (liveTeachers st !! tid) as [students|] eqn:Hlive; [|done].
  simpl. intros Hb'.
  set (socks' := alter (set_currentTeacherId (Some tid)) c
                   (alter (set_isStudent true) c
                      (alter (socket_join (room_of tid)) c (sockets st)))).
  destruct Hinv as [Hb H0 H1 H2 H3 H4].
  assert (tid ≠ "") as Hne by (intros ->; congruence).
  assert (∀ t S, liveTeachers st !! t = Some S → t = tid) as Honly.
  { intros t S Hl. destruct (decide (t = "")) as [->|Hnt]; [congruence|].
    pose proof (inv_live_current _ Hb t Hnt (mk_is_Some _ _ Hl)).
    pose proof (inv_live_current _ Hb tid Hne (mk_is_Some _ _ Hlive)).
    congruence. }
  assert (∀ r s', socks' !! r = Some s' →
    ∃ s0, sockets st !! r = Some s0 ∧
      (r ≠ c → s' = s0) ∧
      (r = c → currentTeacherId s' = Some tid ∧ isStudent s' = true ∧
               rooms s' = {[room_of tid]} ∪ rooms s0)) as Hback.
  { intros r s' Hs'. unfold socks' in Hs'. lookups.
    destruct (sockets st !! r) as [s0|] eqn:Hs0; [|done].
    exists s0. split; [done|].
    repeat case_decide; simplify_eq/=; split_and!; done. }
  assert (∀ r s0, sockets st !! r = Some s0 → is_Some (socks' !! r)) as Hfwd.
  { intros r s0 Hs0. unfold socks'. lookups. rewrite Hs0. simpl. eauto. }
  split; unfold in_room, host; simpl; fold socks'; try done.
  - by rewrite lookup_insert_ne.
  - intros t S r. rewrite lookup_insert.
    destruct (decide (tid = t)) as [<-|Hd].
    + intros [= <-] Hr.
      destruct (decide (r = c)) as [->|Hrc].
      * apply elem_of_dom in Hc as [s0 Hs0].
        destruct (Hfwd _ _ Hs0) as [s' Hs']. exists s'. split; [done|].
        destruct (Hback _ _ Hs') as (? & _ & _ & Hc2). by apply Hc2.
      * assert (r ∈ students) as Hr' by (clear -Hr Hrc; set_solver).
        destruct (H1 _ _ _ Hlive Hr') as (s0 & Hs0 & Hcur0).
        destruct (Hfwd _ _ Hs0) as [s' Hs']. exists s'. split; [done|].
        destruct (Hback _ _ Hs') as (? & ? & Hc1 & _). rewrite Hc1 by done.
        congruence.
    + intros Hl. by destruct Hd; symmetry; eapply Honly.
  - intros t r (s' & Hs' & Hin). rewrite lookup_insert.
    destruct (decide (tid = t)) as [<-|Hd%room_of_ne]; [by eauto|].
    destruct (Hback _ _ Hs') as (s0 & Hs0 & Hc1 & Hc2).
    apply (H2 t r). exists s0. split; [done|].
    destruct (decide (r = c)) as [Hrc|Hrc].
    * destruct (Hc2 Hrc) as (_ & _ & Hrooms). rewrite Hrooms in Hin.
      clear -Hin Hd. set_solver.
    * by rewrite <-Hc1.
  - intros t S c1 c2. rewrite lookup_insert.
    destruct (decide (tid = t)) as [<-|Hd]; [|by intros ?%Honly].
    intros [= <-] (s1 & Hs1 & Hin1) Hn1 (s2 & Hs2 & Hin2) Hn2.
    destruct (Hback _ _ Hs1) as (s10 & Hs10 & Hc1 & _).
    destruct (Hback _ _ Hs2) as (s20 & Hs20 & Hc2 & _).
    assert (c1 ≠ c ∧ c1 ∉ students) as [Hc1c Hc1s] by (clear -Hn1; set_solver).
    assert (c2 ≠ c ∧ c2 ∉ students) as [Hc2c Hc2s] by (clear -Hn2; set_solver).
    apply (H3 tid students); try done.
    + exists s10. split; [done|]. by rewrite <-Hc1.
    + exists s20. split; [done|]. by rewrite <-Hc2.
  - intros t r (s' & Hs' & Hcur' & Hstud'). exists s'. split; [done|].
    destruct (Hback _ _ Hs') as (s0 & Hs0 & Hc1 & Hc2).
    destruct (decide (r = c)) as [Hrc|Hrc].
    { destruct (Hc2 Hrc) as (_ & ? & _). congruence. }
    rewrite Hc1 in * by done.
    assert (host t st r) as Hh by (exists s0; split_and!; congruence).
    destruct (H4 _ _ Hh) as (s0' & ? & Hin0). by simplify_eq.
Qed.

Lemma on_leaveTeacherRoom_room_inv c tid st :
  room_inv st → room_inv (on_leaveTeacherRoom c tid st).1.
Proof.
  intros Hinv.
  pose proof (on_leaveTeacherRoom_inv c tid st (rinv_base _ Hinv)) as Hb'.
  revert Hb'. unfold on_leaveTeacherRoom. simpl.
  set (socks' := if decide (currentTeacherId_of c st = Some tid)
                 then alter (set_currentTeacherId None) c
                        (alter (socket_leave (room_of tid)) c (sockets st))
                 else alter (socket_leave (room_of tid)) c (sockets st)).
  intros Hb'. destruct Hinv as [Hb H0 H1 H2 H3 H4].
  assert (∀ r s', socks' !! r = Some s' →
    ∃ s0, sockets st !! r = Some s0 ∧ isStudent s' = isStudent s0 ∧
      (r ≠ c → s' = s0) ∧
      (r = c → rooms s' = rooms s0 ∖ {[room_of tid]} ∧
               currentTeacherId s'
               = if decide (currentTeacherId s0 = Some tid) then None
                 else currentTeacherId s0)) as Hback.
  { intros r s' Hs'. unfold socks', currentTeacherId_of in Hs'.
    destruct (sockets st !! c) as [sc|] eqn:Hsc; simpl in Hs'.
    - destruct (decide (currentTeacherId sc = Some tid)); lookups;
        (destruct (sockets st !! r) as [s0|] eqn:Hs0; [|done]);
        exists s0; (split; [done|]);
        destruct (decide (c = r)); simplify_eq/=; split_and!; try done;
        by case_decide.
    - lookups. destruct (sockets st !! r) as [s0|] eqn:Hs0; [|done].
      exists s0. split; [done|].
      destruct (decide (c = r)); simplify_eq/=. done. }
  assert (∀ r s0, sockets st !! r = Some s0 → is_Some (socks' !! r)) as Hfwd.
  { intros r s0 Hs0. unfold socks'. case_decide; lookups; rewrite Hs0; simpl; eauto. }
  split; unfold in_room, host; simpl; fold socks'; try done; clear Hb'.
  - rewrite lookup_alter. destruct (decide (tid = "")) as [->|]; [by rewrite H0|done].
  - intros t S r. rewrite lookup_alter. intros Hl Hr.
    assert (∃ S0, liveTeachers st !! t = Some S0 ∧ r ∈ S0 ∧ (t = tid → r ≠ c))
      as (S0 & Hl0 & Hr0 & Hrc).
    { destruct (decide (tid = t)) as [<-|Hd]; [|by eauto 6].
      destruct (liveTeachers st !! tid) as [S0|]; simplify_eq/=.
      exists S0. clear -Hr. set_solver. }
    destruct (H1 _ _ _ Hl0 Hr0) as (s0 & Hs0 & Hcur0).
    destruct (Hfwd _ _ Hs0) as [s' Hs']. exists s'. split; [done|].
    destruct (Hback _ _ Hs') as (s0' & ? & _ & Hc1 & Hc2). simplify_eq.
    destruct (decide (r = c)) as [->|Hne]; [|by rewrite Hc1].
    destruct (Hc2 eq_refl) as [_ ->]. rewrite Hcur0.
    rewrite decide_False; [done|]. intros [= ->]. by apply Hrc.
  - intros t r (s' & Hs' & Hin). rewrite lookup_alter.
    destruct (Hback _ _ Hs') as (s0 & Hs0 & _ & Hc1 & Hc2).
    assert (is_Some (liveTeachers st !! t)) as Hl.
    { apply (H2 t r). exists s0. split; [done|].
      destruct (decide (r = c)) as [Hrc|Hrc]; [|by rewrite <-Hc1].
      destruct (Hc2 Hrc) as [Hrooms _]. rewrite Hrooms in Hin.
      clear -Hin. set_solver. }
    destruct (decide (tid = t)) as [->|]; [by apply fmap_is_Some|done].
  - intros t S c1 c2. rewrite lookup_alter.
    intros Hl (s1 & Hs1 & Hin1) Hn1 (s2 & Hs2 & Hin2) Hn2.
    destruct (Hback _ _ Hs1) as (s10 & Hs10 & _ & Hc11 & Hc12).
    destruct (Hback _ _ Hs2) as (s20 & Hs20 & _ & Hc21 & Hc22).
    assert (∀ r s' s0, (r ≠ c → s' = s0) →
              (r = c → rooms s' = rooms s0 ∖ {[room_of tid]} ∧
                 currentTeacherId s'
                 = if decide (currentTeacherId s0 = Some tid) then None
                   else currentTeacherId s0) →
              room_of t ∈ rooms s' →
              room_of t ∈ rooms s0 ∧ (t = tid → r ≠ c)) as Hroom.
    { intros r s' s0 Ha Hb0 Hin. destruct (decide (r = c)) as [Hrc|Hrc].
      - destruct (Hb0 Hrc) as [Hrooms _]. rewrite Hrooms in Hin.
        split; [clear -Hin; set_solver|]. intros ->. clear -Hin. set_solver.
      - rewrite <-Ha by done. done. }
    destruct (Hroom _ _ _ Hc11 Hc12 Hin1) as [Hin10 Hne1].
    destruct (Hroom _ _ _ Hc21 Hc22 Hin2) as [Hin20 Hne2].
    destruct (decide (tid = t)) as [<-|Hd].
    + destruct (liveTeachers st !! tid) as [S0|] eqn:Hl0; simplify_eq/=.
      apply (H3 tid S0); try done.
      * by exists s10.
      * specialize (Hne1 eq_refl). clear -Hn1 Hne1. set_solver.
      * by exists s20.
      * specialize (Hne2 eq_refl). clear -Hn2 Hne2. set_solver.
    + apply (H3 t S); try done; [by exists s10|by exists s20].
  - intros t r (s' & Hs' & Hcur' & Hstud'). exists s'. split; [done|].
    destruct (Hback _ _ Hs') as (s0 & Hs0 & Hst & Hc1 & Hc2).
    destruct (decide (r = c)) as [Hrc|Hrc].
    2:{ specialize (Hc1 Hrc). subst s'.
        destruct (H4 t r) as (s0' & ? & ?); [by exists s0|]. by simplify_eq. }
    destruct (Hc2 Hrc) as [Hrooms Hcur2]. rewrite Hcur2 in Hcur'.
    destruct (decide (currentTeacherId s0 = Some tid)) as [|Hnt]; [done|].
    assert (host t st r) as Hh by (exists s0; split_and!; congruence).
    destruct (H4 _ _ Hh) as (s0' & ? & Hin0). simplify_eq.
    rewrite Hrooms. apply elem_of_difference. split; [done|].
    intros ->%elem_of_singleton%room_of_inj. congruence.
Qed.

Lemma disconnect_quiet_room_inv c st lt' :
  (∀ t, lt' !! t = (λ S : gset nat, S ∖ {[c]}) <$> liveTeachers st !! t) →
  relay_inv (mkRelay lt' (currentLiveTeacher st) (delete c (sockets st))
                     (nextSocket st)) →
  room_inv st →
  room_inv (mkRelay lt' (currentLiveTeacher st) (delete c (sockets st))
                    (nextSocket st)).
Proof.
  intros Hlt Hb' [Hb H0 H1 H2 H3 H4].
  split; unfold in_room, host; simpl; try done; clear Hb'.
  - by rewrite Hlt, H0.
  - intros t S r. rewrite Hlt. intros Hl Hr.
    destruct (liveTeachers st !! t) as [S0|] eqn:Hl0; simplify_eq/=.
    apply elem_of_difference in Hr as [Hr Hrc%not_elem_of_singleton].
    destruct (H1 _ _ _ Hl0 Hr) as (s0 & Hs0 & Hcur0).
    exists s0. by rewrite lookup_delete_ne.
  - intros t r (s & [Hrc Hs]%lookup_delete_Some & Hin).
    rewrite Hlt. apply fmap_is_Some, (H2 t r). by exists s.
  - intros t S c1 c2. rewrite Hlt. intros Hl
      (s1 & [Hc1 Hs1]%lookup_delete_Some & Hin1) Hn1
      (s2 & [Hc2 Hs2]%lookup_delete_Some & Hin2) Hn2.
    destruct (liveTeachers st !! t) as [S0|] eqn:Hl0; simplify_eq/=.
    apply (H3 t S0); try done.
    + by exists s1.
    + clear -Hn1 Hc1. set_solver.
    + by exists s2.
    + clear -Hn2 Hc2. set_solver.
  - intros t r (s & [Hrc Hs]%lookup_delete_Some & Hcur & Hstud).
    destruct (H4 t r) as (s' & Hs' & Hin); [by exists s|].
    exists s'. by rewrite lookup_delete_ne.
Qed.

Lemma disconnect_host_room_inv c tid students st :
  host tid st c → liveTeachers st !! tid = Some students →
  relay_inv (tear_down tid students (with_sockets st (delete c (sockets st)))).1 →
  room_inv st →
  room_inv (tear_down tid students (with_sockets st (delete c (sockets st)))).1.
Proof.
  intros Hhost Hlive Hb' Hinv.
  pose proof (λ r, guest_is_host st tid students c r Hinv Hlive Hhost) as Hguest.
  revert Hb'. unfold tear_down, with_sockets. simpl. intros Hb'.
  set (socks' := evict students (room_of tid) (delete c (sockets st))).
  assert (∀ r s', socks' !! r = Some s' →
    ∃ s0, sockets st !! r = Some s0 ∧ r ≠ c ∧
      isStudent s' = isStudent s0 ∧
      currentTeacherId s' = currentTeacherId s0 ∧
      (∀ t, room_of t ∈ rooms s' → room_of t ∈ rooms s0 ∧ t ≠ tid) ∧
      (∀ t, t ≠ tid → room_of t ∈ rooms s0 → room_of t ∈ rooms s')) as Hback.
  { intros r s' Hs'. unfold socks' in Hs'. rewrite evict_lookup in Hs'.
    destruct (decide (c = r)) as [->|Hcr];
      [by rewrite lookup_delete_eq in Hs'|].
    rewrite lookup_delete_ne in Hs' by done.
    destruct (sockets st !! r) as [s0|] eqn:Hs0; [|done].
    exists s0. do 2 (split; [done|]).
    assert (room_of tid ∈ rooms s0 → r ∉ students → r = c) as Hg.
    { intros ??. apply Hguest; [by exists s0|done]. }
    destruct (decide (r ∈ students)); simplify_eq/=; split_and!; try done.
    - intros t [Hin Hnin%not_elem_of_singleton]%elem_of_difference.
      split; [done|]. by intros ->.
    - intros t Hne%room_of_ne Hin. clear -Hne Hin. set_solver.
    - intros t Hin. split; [done|]. intros ->. destruct Hcr. symmetry. auto. }
  assert (∀ r s0, sockets st !! r = Some s0 → r ≠ c → is_Some (socks' !! r))
    as Hfwd.
  { intros r s0 Hs0 Hrc. unfold socks'.
    rewrite evict_lookup, lookup_delete_ne, Hs0 by done. simpl. eauto. }
  destruct Hinv as [Hb H0 H1 H2 H3 H4].
  split; unfold in_room, host; simpl; fold socks'; try done; clear Hb'.
  - rewrite lookup_delete_ne; [done|]. intros Heq. subst tid. congruence.
  - intros t S r. rewrite lookup_delete.
    destruct (decide (tid = t)) as [->|Hd]; [done|]. intros Hl Hr.
    destruct (H1 _ _ _ Hl Hr) as (s0 & Hs0 & Hcur0).
    assert (r ≠ c) as Hrc.
    { intros ->. by apply (host_not_subscriber st tid t S c Hb Hhost Hl). }
    destruct (Hfwd _ _ Hs0 Hrc) as [s' Hs']. exists s'. split; [done|].
    destruct (Hback _ _ Hs') as (s0' & ? & _ & _ & Hc1 & _). simplify_eq.
    congruence.
  - intros t r (s' & Hs' & Hin).
    destruct (Hback _ _ Hs') as (s0 & Hs0 & _ & _ & _ & Hr1 & _).
    destruct (Hr1 _ Hin) as [Hin0 Hne]. rewrite lookup_delete_ne by done.
    apply (H2 t r). by exists s0.
  - intros t S c1 c2. rewrite lookup_delete.
    destruct (decide (tid = t)) as [->|Hd]; [done|].
    intros Hl (s1 & Hs1 & Hin1) Hn1 (s2 & Hs2 & Hin2) Hn2.
    destruct (Hback _ _ Hs1) as (s10 & Hs10 & _ & _ & _ & Hr1 & _).
    destruct (Hback _ _ Hs2) as (s20 & Hs20 & _ & _ & _ & Hr2 & _).
    apply (H3 t S); try done.
    + exists s10. split; [done|]. by apply Hr1.
    + exists s20. split; [done|]. by apply Hr2.
  - intros t r (s' & Hs' & Hcur' & Hstud'). exists s'. split; [done|].
    destruct (Hback _ _ Hs') as (s0 & Hs0 & Hrc & Hst & Hc1 & _ & Hr2).
    assert (host t st r) as Hh by (exists s0; split_and!; congruence).
    destruct (H4 _ _ Hh) as (s0' & ? & Hin0). simplify_eq.
    apply Hr2; [|done]. intros ->. apply Hrc.
    apply Hguest; [by exists s0|].
    apply (host_not_subscriber st tid tid _ _ Hb Hh Hlive).
Qed.

Lemma on_disconnect_room_inv c st :
  c ∈ dom (sockets st) → room_inv st → room_inv (on_disconnect c st).1.
Proof.
  intros [sc Hsc]%elem_of_dom Hinv.
  pose proof (on_disconnect_inv c st (rinv_base _ Hinv)) as Hb'.
  revert Hb'. unfold on_disconnect, currentTeacherId_of, isStudent_of.
  rewrite Hsc. simpl.
  assert (∀ t S, liveTeachers st !! t = Some S → c ∈ S →
            currentTeacherId sc = Some t ∧ isStudent sc = true ∧ t ≠ "")
    as Hsub.
  { intros t S Hl Hc.
    destruct (rinv_subscriber _ Hinv _ _ _ Hl Hc) as (sc' & ? & Hcur).
    destruct (inv_subscriber _ (rinv_base _ Hinv) _ _ _ _ Hl Hc Hsc).
    simplify_eq. split_and!; try done. intros ->.
    pose proof (rinv_no_empty _ Hinv). congruence. }
  assert ((∀ t S, liveTeachers st !! t = Some S → c ∉ S) →
            ∀ t, liveTeachers st !! t
                 = (λ S : gset nat, S ∖ {[c]}) <$> liveTeachers st !! t)
    as Hquiet.
  { intros Hn t. destruct (liveTeachers st !! t) as [S|] eqn:Hl; [|done].
    simpl. f_equal. specialize (Hn _ _ Hl). clear -Hn. set_solver. }
  destruct (currentTeacherId sc) as [tid|] eqn:Hcur.
  2:{ intros Hb'. apply disconnect_quiet_room_inv; [|done..].
      apply Hquiet. intros t S Hl Hc. by destruct (Hsub _ _ Hl Hc). }
  destruct tid as [|a tid].
  { intros Hb'. apply disconnect_quiet_room_inv; [|done..].
    apply Hquiet. intros t S Hl Hc. destruct (Hsub _ _ Hl Hc) as ([= <-] & _ & ?).
    done. }
  cbv iota. destruct (isStudent sc) eqn:Hstud.
  - unfold with_liveTeachers, with_sockets. simpl. intros Hb'.
    apply disconnect_quiet_room_inv; [|done..].
    intros t. rewrite lookup_alter.
    destruct (decide (String a tid = t)) as [<-|Hd]; [done|].
    destruct (liveTeachers st !! t) as [S|] eqn:Hl; [|done].
    simpl. f_equal.
    assert (c ∉ S) as Hn; [|clear -Hn; set_solver].
    intros Hc. destruct (Hsub _ _ Hl Hc) as ([= <-] & _). done.
  - destruct (liveTeachers st !! String a tid) as [students|] eqn:Hlive.
    + intros Hb'. apply disconnect_host_room_inv; try done. by exists sc.
    + intros Hb'. apply disconnect_quiet_room_inv; [|done..].
      apply Hquiet. intros t S Hl Hc. destruct (Hsub _ _ Hl Hc) as (_ & ? & _).
      congruence.
Qed.

Lemma on_connection_room_inv st :
  room_inv st → room_inv (on_connection st).1.
Proof.
  intros Hinv.
  pose proof (on_connection_inv st (rinv_base _ Hinv)) as Hb'.
  destruct Hinv as [Hb H0 H1 H2 H3 H4].
  assert (sockets st !! nextSocket st = None) as Hfresh.
  { apply not_elem_of_dom. intros Hin%(inv_open_fresh _ Hb). lia. }
  assert (∀ r s, <[nextSocket st := mkSocket None false ∅]> (sockets st) !! r
                 = Some s →
            room_of "" ∈ rooms s ∨ currentTeacherId s ≠ None ∨ r ≠ nextSocket st →
            sockets st !! r = Some s) as Hback.
  { intros r s. rewrite lookup_insert.
    destruct (decide (nextSocket st = r)) as [<-|]; [|done].
    intros [= <-]. simpl. intros [?|[?|?]]; [set_solver|done..]. }
  split; unfold in_room, host; simpl; try done; clear Hb'.
  - intros t S r Hl Hr. destruct (H1 _ _ _ Hl Hr) as (s0 & Hs0 & Hcur0).
    exists s0. rewrite lookup_insert_ne; [done|]. congruence.
  - intros t r (s & Hs & Hin). apply (H2 t r). exists s. split; [|done].
    rewrite lookup_insert in Hs.
    destruct (decide (nextSocket st = r)); [|done].
    simplify_eq/=. clear -Hin. set_solver.
  - intros t S c1 c2 Hl (s1 & Hs1 & Hin1) Hn1 (s2 & Hs2 & Hin2) Hn2.
    rewrite lookup_insert in Hs1, Hs2.
    apply (H3 t S); try done.
    + exists s1. split; [|done].
      destruct (decide (nextSocket st = c1)); [|done].
      simplify_eq/=. clear -Hin1. set_solver.
    + exists s2. split; [|done].
      destruct (decide (nextSocket st = c2)); [|done].
      simplify_eq/=. clear -Hin2. set_solver.
  - intros t r (s & Hs & Hcur & Hstud).
    rewrite lookup_insert in Hs.
    destruct (decide (nextSocket st = r)) as [<-|Hd]; [by simplify_eq/=|].
    destruct (H4 t r) as (s' & Hs' & Hin); [by exists s|].
    exists s'. by rewrite lookup_insert_ne.
Qed.

Lemma conforming_reachable st : conforming st → reachable st.
Proof. induction 1; [constructor|by constructor]. Qed.

Lemma initial_room_inv : room_inv initial.
Proof.
  split; unfold in_room, host; simpl; try done.
  - apply initial_inv.
  - by intros t c [s [? _]].
  - by intros t c (s & ? & _).
Qed.

Lemma conforming_room_inv st : conforming st → room_inv st.
Proof.
  induction 1 as [|st ev Hst IH Hev]; [apply initial_room_inv|].
  destruct ev as [|c m|c]; unfold step.
  - by apply on_connection_room_inv.
  - case_decide as Hc; [|done]. destruct m as [|tid|tid|data|tid|tid]; simpl.
    + unfold on_checkTeacherStatus.
      destruct (currentLiveTeacher st); [|done]. by destruct (truthy _).
    + by apply on_startLive_room_inv.
    + destruct Hev as [Hidle|[Hcur Hstud]].
      * by apply on_stopLive_idle_room_inv.
      * apply on_stopLive_host_room_inv; [|done].
        unfold host, currentTeacherId_of, isStudent_of in *.
        destruct (sockets st !! c) as [s|]; simpl in *; [|done]. by exists s.
    + done.
    + by apply on_joinTeacherRoom_room_inv.
    + by apply on_leaveTeacherRoom_room_inv.
  - case_decide; [|done]. by apply on_disconnect_room_inv.
Qed.

Lemma conforming_run evs st :
  conforming st → run_conforms evs st → conforming (run evs st).1.
Proof.
  revert st. induction evs as [|ev evs IH]; intros st Hst Hevs; [done|].
  destruct Hevs as [Hev Hevs]. simpl.
  pose proof (conforming_step _ _ Hst Hev) as Hst1.
  destruct (step st ev) as [st1 out1]. simpl in *.
  specialize (IH _ Hst1 Hevs). by destruct (run evs st1).
Qed.

(** On a conforming run the room of a live teacher, without the
    teacher-of-record, is the subscriber set. *)
Lemma whiteboardUpdate_exact st c tid students :
  conforming st → liveTeachers st !! tid = Some students →
  currentTeacherId_of c st = Some tid → isStudent_of c st = false →
  room_members (room_of tid) (sockets st) ∖ {[c]} = students.
Proof.
  intros Hinv%conforming_room_inv Hlive Hcur Hstud.
  assert (host tid st c) as Hhost.
  { unfold host, currentTeacherId_of, isStudent_of in *.
    destruct (sockets st !! c) as [s|]; simpl in *; [|done]. by exists s. }
  pose proof (host_not_subscriber st tid tid _ _ (rinv_base _ Hinv) Hhost Hlive)
    as Hcs.
  apply set_eq. intros r. rewrite elem_of_difference, elem_of_room_members.
  rewrite not_elem_of_singleton. split.
  - intros [Hin Hrc]. destruct (decide (r ∈ students)) as [|Hn]; [done|].
    destruct Hrc. by apply (guest_is_host st tid students).
  - intros Hr. split; [|by intros ->].
    destruct (rinv_subscriber _ Hinv _ _ _ Hlive Hr) as (s & Hs & _).
    exists s. split; [done|].
    by apply (inv_subscriber _ (rinv_base _ Hinv) _ _ _ _ Hlive Hr Hs).
Qed.

(** * GoLive *)

(** While [currentLiveTeacher] is truthy, [startLive] answers [liveError] to
    the caller alone and changes nothing. *)
Lemma startLive_rejected st c tid :
  truthy (currentLiveTeacher st) = true → c ∈ dom (sockets st) →
  step st (Message c (StartLive tid))
  = (st, [({[c]}, LiveError liveError_message)]).
Proof.
  intros Ht Hc. rewrite step_message by done. simpl.
  unfold on_startLive. by rewrite Ht.
Qed.

Lemma startLive_calls_rejected calls st :
  truthy (currentLiveTeacher st) = true →
  (run (startLive_calls calls) st).1 = st ∧
  filter is_teacherOnline (run (startLive_calls calls) st).2 = [].
Proof.
  intros Ht. induction calls as [|[c tid] calls [IH1 IH2]]; [done|].
  cbn [startLive_calls fmap list_fmap run fst snd].
  assert (step st (Message c (StartLive tid)) = (st, []) ∨
          step st (Message c (StartLive tid))
          = (st, [({[c]}, LiveError liveError_message)])) as [->| ->].
  { destruct (decide (c ∈ dom (sockets st))).
    - right. by apply startLive_rejected.
    - left. unfold step. by rewrite decide_False. }
  - fold (startLive_calls calls).
    destruct (run (startLive_calls calls) st); simpl in *. done.
  - fold (startLive_calls calls).
    destruct (run (startLive_calls calls) st); simpl in *. done.
Qed.

(** Of any sequence of [startLive] calls with non-empty identifiers at most
    one is accepted. *)
Lemma startLive_calls_at_most_one calls st :
  Forall (λ call, call.2 ≠ "") calls →
  length (filter is_teacherOnline (run (startLive_calls calls) st).2) ≤ 1.
Proof.
  revert st. induction calls as [|[c tid] calls IH]; intros st Hne; [simpl; lia|].
  apply Forall_cons in Hne as [Hne Hnes]. simpl in Hne.
  cbn [startLive_calls fmap list_fmap run]. fold (startLive_calls calls).
  destruct (decide (c ∈ dom (sockets st))) as [Hc|Hc].
  - destruct (truthy (currentLiveTeacher st)) eqn:Ht.
    + rewrite startLive_rejected by done. specialize (IH st Hnes).
      destruct (run (startLive_calls calls) st). simpl in *. done.
    + rewrite step_message by done. simpl. unfold on_startLive. rewrite Ht.
      match goal with |- context [run _ ?st1] =>
        destruct (startLive_calls_rejected calls st1) as [_ Hrej] end.
      { simpl. by apply truthy_Some. }
      match goal with |- context [run _ ?st1] =>
        destruct (run (startLive_calls calls) st1) end.
      simpl in *. rewrite Hrej. simpl. lia.
  - unfold step at 1. rewrite decide_False by done. specialize (IH st Hnes).
    destruct (run (startLive_calls calls) st). simpl in *. done.
Qed.

(** C1 (the code departs from the claim).  The claim: while
    CurrentLiveTeacher is set, GoLive is answered with liveError and changes
    nothing, so of several GoLive calls at most one succeeds and at most one
    teacher is live.  The handler tests [if (currentLiveTeacher)]: after
    [startLive("")] on socket 0 the variable holds the empty string, which
    the test takes for "nobody live", and [startLive("t2")] on socket 1 is
    accepted as well: no liveError, a teacherOnline broadcast, and two
    sessions in [liveTeachers]. *)
Theorem C1_startLive_after_empty_id :
  let st1 := exec [Connection; Connection; Message 0 (StartLive "")] in
  let st2 := (step st1 (Message 1 (StartLive "t2"))).1 in
  let out := (step st1 (Message 1 (StartLive "t2"))).2 in
  currentLiveTeacher st1 = Some "" ∧
  liveTeachers st1 = {[ "" := ∅ ]} ∧
  out = [({[0; 1]}, TeacherOnline "t2")] ∧
  liveTeachers st2 = {[ "" := ∅; "t2" := ∅ ]} ∧
  currentLiveTeacher st2 = Some "t2".
Proof. vm_compute. done. Qed.

(** C4.  GoLive(teacherId) on an open socket [c] while CurrentLiveTeacher is
    unset creates the session of teacherId with an empty subscriber set, sets
    CurrentLiveTeacher and the socket's associated teacher id to teacherId
    (the socket also enters the teacher's room), and broadcasts teacherOnline
    to all open sockets, [c] among them. *)
Theorem C4_startLive_accepted st c s tid :
  currentLiveTeacher st = None → sockets st !! c = Some s →
  step st (Message c (StartLive tid))
  = (mkRelay (<[tid := ∅]> (liveTeachers st)) (Some tid)
       (<[c := mkSocket (Some tid) (isStudent s) ({[room_of tid]} ∪ rooms s)]>
          (sockets st))
       (nextSocket st),
     [(dom (sockets st), TeacherOnline tid)])
  ∧ c ∈ dom (sockets st).
Proof.
  intros Hcur Hs.
  assert (c ∈ dom (sockets st)) as Hc by (apply elem_of_dom; eauto).
  split; [|done]. rewrite step_message by done. simpl.
  unfold on_startLive, io_emit. rewrite Hcur. simpl.
  rewrite !dom_alter_L. by rewrite (alter_alter_insert _ _ _ _ s).
Qed.

Lemma C4_witness :
  let st := exec [Connection; Connection] in
  step st (Message 1 (StartLive "t1"))
  = (mkRelay (<["t1" := ∅]> (liveTeachers st)) (Some "t1")
       (<[1 := mkSocket (Some "t1") false ({[room_of "t1"]} ∪ ∅)]> (sockets st))
       (nextSocket st),
     [(dom (sockets st), TeacherOnline "t1")])
  ∧ 1 ∈ dom (sockets st).
Proof.
  apply (C4_startLive_accepted (exec [Connection; Connection]) 1
           (mkSocket None false ∅) "t1"); vm_compute; reflexivity.
Defined.

(** * QueryStatus *)

(** [checkTeacherStatus] never changes the state. *)
Lemma checkTeacherStatus_state st c :
  (step st (Message c CheckTeacherStatus)).1 = st.
Proof.
  unfold step. case_decide; [|done]. simpl. unfold on_checkTeacherStatus.
  destruct (currentLiveTeacher st) as [[|a tid]|]; done.
Qed.

Lemma checkTeacherStatus_reply st c tid :
  c ∈ dom (sockets st) → currentLiveTeacher st = Some tid → tid ≠ "" →
  step st (Message c CheckTeacherStatus) = (st, [({[c]}, TeacherOnline tid)]).
Proof.
  intros Hc Hcur Hne. rewrite step_message by done. simpl.
  unfold on_checkTeacherStatus. rewrite Hcur. by destruct tid.
Qed.

(** After an accepted [startLive] with a non-empty identifier every open
    socket that asks is told, alone, that this teacher is online. *)
Lemma checkTeacherStatus_after_startLive st c c' tid :
  truthy (currentLiveTeacher st) = false → tid ≠ "" →
  c ∈ dom (sockets st) → c' ∈ dom (sockets st) →
  let st1 := (step st (Message c (StartLive tid))).1 in
  step st1 (Message c' CheckTeacherStatus) = (st1, [({[c']}, TeacherOnline tid)]).
Proof.
  intros Hcur Hne Hc Hc' st1. subst st1. rewrite (step_message _ c) by done.
  simpl. unfold on_startLive. rewrite Hcur. simpl.
  apply checkTeacherStatus_reply; simpl; [|done..].
  by rewrite !dom_alter_L.
Qed.

(** C7 (the code departs from the claim).  The claim: after a successful
    GoLive(T) a QueryStatus from any connection is answered with
    teacherOnline(T).  [startLive("")] on socket 0 is accepted and
    teacherOnline for the empty identifier is broadcast, but
    [checkTeacherStatus] on socket 1 tests [if (currentLiveTeacher)], finds
    the empty string falsy and sends nothing. *)
Theorem C7_checkTeacherStatus_empty_id :
  let r1 := step (exec [Connection; Connection]) (Message 0 (StartLive "")) in
  r1.2 = [({[0; 1]}, TeacherOnline "")] ∧
  currentLiveTeacher r1.1 = Some "" ∧
  liveTeachers r1.1 = {[ "" := ∅ ]} ∧
  step r1.1 (Message 1 CheckTeacherStatus) = (r1.1, []).
Proof. vm_compute. done. Qed.

(** * JoinTeacherRoom *)

(** C5.  JoinTeacherRoom(T) when T has no session is a no-op: nothing is
    sent and the state, global and local, is unchanged. *)
Theorem C5_join_not_live st c tid :
  liveTeachers st !! tid = None →
  step st (Message c (JoinTeacherRoom tid)) = (st, []).
Proof.
  intros Hnone. unfold step. case_decide; [|done]. simpl.
  unfold on_joinTeacherRoom. by rewrite Hnone.
Qed.

Lemma C5_witness :
  step (exec [Connection]) (Message 0 (JoinTeacherRoom "t1"))
  = (exec [Connection], []).
Proof. apply C5_join_not_live. reflexivity. Defined.

(** * StopLive *)

Lemma stopLive_session_gone st c tid :
  liveTeachers (step st (Message c (StopLive tid))).1 !! tid = None
  ∨ c ∉ dom (sockets st).
Proof.
  unfold step. case_decide; [left|by right]. simpl. unfold on_stopLive.
  destruct (liveTeachers st !! tid) as [students|] eqn:Hlive.
  - unfold tear_down. simpl. case_decide; simpl; apply lookup_delete_eq.
  - case_decide; simpl; done.
Qed.

Lemma stopLive_evicts st c tid students r :
  liveTeachers st !! tid = Some students → r ∈ students →
  r ∉ room_members (room_of tid) (sockets (on_stopLive c tid st).1).
Proof.
  intros Hlive Hr. rewrite (on_stopLive_live _ _ _ _ Hlive). simpl.
  intros [s [Hs Hin]]%elem_of_room_members.
  case_decide; lookups; socket_cases; set_solver.
Qed.

(** Live or not, what StopLive(T) does to the global state and what it emits
    does not depend on the caller. *)
Lemma stopLive_any_caller st c1 c2 tid :
  c1 ∈ dom (sockets st) → c2 ∈ dom (sockets st) →
  let r1 := step st (Message c1 (StopLive tid)) in
  let r2 := step st (Message c2 (StopLive tid)) in
  liveTeachers r1.1 = liveTeachers r2.1 ∧
  currentLiveTeacher r1.1 = currentLiveTeacher r2.1 ∧
  r1.2 = r2.2.
Proof.
  intros Hc1 Hc2. rewrite !step_message by done. simpl.
  destruct (liveTeachers st !! tid) as [students|] eqn:Hlive.
  - by rewrite !(on_stopLive_live _ _ _ _ Hlive).
  - unfold on_stopLive. rewrite Hlive.
    by destruct (decide (currentTeacherId_of c1 st = Some tid)),
                (decide (currentTeacherId_of c2 st = Some tid)).
Qed.

(** C6.  StopLive(T) when T has no session sends nothing and leaves
    [liveTeachers], [currentLiveTeacher] and every other socket unchanged;
    only the caller, if its associated teacher id is T, has that id cleared
    (and leaves T's room). *)
Theorem C6_stopLive_idempotent st c s tid :
  liveTeachers st !! tid = None → sockets st !! c = Some s →
  ∃ st',
    step st (Message c (StopLive tid)) = (st', []) ∧
    liveTeachers st' = liveTeachers st ∧
    currentLiveTeacher st' = currentLiveTeacher st ∧
    nextSocket st' = nextSocket st ∧
    (∀ c', c' ≠ c → sockets st' !! c' = sockets st !! c') ∧
    sockets st' !! c
    = Some (if decide (currentTeacherId s = Some tid)
            then mkSocket None (isStudent s) (rooms s ∖ {[room_of tid]})
            else s).
Proof.
  intros Hnone Hs.
  assert (c ∈ dom (sockets st)) as Hc by (apply elem_of_dom; eauto).
  rewrite step_message by done. simpl. unfold on_stopLive. rewrite Hnone.
  unfold currentTeacherId_of. rewrite Hs. simpl.
  destruct (decide (currentTeacherId s = Some tid)) as [Heq|Hne].
  - eexists. split; [done|]. simpl. repeat split.
    + intros c' Hc'. by rewrite !lookup_alter_ne.
    + rewrite !lookup_alter_eq, Hs. done.
  - exists st. repeat split; done.
Qed.

(** The second of two StopLive(T) in a row. *)
Lemma C6_witness :
  let st := (step (exec [Connection; Message 0 (StartLive "t1")])
                  (Message 0 (StopLive "t1"))).1 in
  ∃ st',
    step st (Message 0 (StopLive "t1")) = (st', []) ∧
    liveTeachers st' = liveTeachers st ∧
    currentLiveTeacher st' = currentLiveTeacher st ∧
    nextSocket st' = nextSocket st ∧
    (∀ c', c' ≠ 0 → sockets st' !! c' = sockets st !! c') ∧
    sockets st' !! 0
    = Some (if decide (currentTeacherId (mkSocket None false ∅) = Some "t1")
            then mkSocket None (isStudent (mkSocket None false ∅))
                   (rooms (mkSocket None false ∅) ∖ {[room_of "t1"]})
            else mkSocket None false ∅).
Proof.
  apply (C6_stopLive_idempotent _ 0 (mkSocket None false ∅) "t1");
    vm_compute; reflexivity.
Defined.

(** C9.  StopLive(T) for a live T does the same to the global state
    whichever open socket sends it: the session is deleted,
    CurrentLiveTeacher is cleared if it is T, teacherOffline(T) goes to all
    open sockets and every subscriber is out of T's room; for two callers the
    resulting [liveTeachers], [currentLiveTeacher] and emissions are equal. *)
Theorem C9_stopLive_any_caller st c1 c2 tid students :
  liveTeachers st !! tid = Some students →
  c1 ∈ dom (sockets st) → c2 ∈ dom (sockets st) →
  let r1 := step st (Message c1 (StopLive tid)) in
  let r2 := step st (Message c2 (StopLive tid)) in
  liveTeachers r1.1 = delete tid (liveTeachers st) ∧
  currentLiveTeacher r1.1
    = (if decide (currentLiveTeacher st = Some tid) then None
       else currentLiveTeacher st) ∧
  r1.2 = [(dom (sockets st), TeacherOffline tid)] ∧
  (∀ r, r ∈ students → r ∉ room_members (room_of tid) (sockets r1.1)) ∧
  liveTeachers r2.1 = liveTeachers r1.1 ∧
  currentLiveTeacher r2.1 = currentLiveTeacher r1.1 ∧
  r2.2 = r1.2.
Proof.
  intros Hlive Hc1 Hc2. rewrite !step_message by done. simpl.
  rewrite (on_stopLive_live _ c2 _ _ Hlive).
  split_and!; try (by rewrite (on_stopLive_live _ c1 _ _ Hlive)).
  intros r Hr. by apply (stopLive_evicts _ _ _ students).
Qed.

(** Socket 2 never went live and never joined; socket 0 is the teacher. *)
Lemma C9_witness :
  let st := exec [Connection; Connection; Connection;
                  Message 0 (StartLive "t1"); Message 1 (JoinTeacherRoom "t1")] in
  let r1 := step st (Message 0 (StopLive "t1")) in
  let r2 := step st (Message 2 (StopLive "t1")) in
  liveTeachers r1.1 = delete "t1" (liveTeachers st) ∧
  currentLiveTeacher r1.1
    = (if decide (currentLiveTeacher st = Some "t1") then None
       else currentLiveTeacher st) ∧
  r1.2 = [(dom (sockets st), TeacherOffline "t1")] ∧
  (∀ r, r ∈ ({[1]} : gset nat) →
        r ∉ room_members (room_of "t1") (sockets r1.1)) ∧
  liveTeachers r2.1 = liveTeachers r1.1 ∧
  currentLiveTeacher r2.1 = currentLiveTeacher r1.1 ∧
  r2.2 = r1.2.
Proof.
  apply (C9_stopLive_any_caller _ 0 2 "t1" {[1]}).
  - vm_compute. reflexivity.
  - vm_compute. reflexivity.
  - vm_compute. reflexivity.
Defined.

(** * WhiteboardUpdate *)

(** C3, as stated, fails: in the state after [stale_host] teacher "t1" is
    live with no subscriber, socket 2 is its teacher-of-record, and the
    update socket 2 sends is delivered to socket 0. *)
Lemma C3_counterexample :
  ¬ (∀ st c tid students data,
       reachable st → liveTeachers st !! tid = Some students →
       currentTeacherId_of c st = Some tid → isStudent_of c st = false →
       teacherId data = tid →
       step st (Message c (WhiteboardUpdateIn data))
       = (st, [(students, WhiteboardUpdateOut data)])).
Proof.
  intros H.
  specialize (H (exec stale_host) 2 "t1" ∅ (mkWhiteboardUpdate "t1" "[]")
                (reachable_exec _)).
  vm_compute in H. specialize (H eq_refl eq_refl eq_refl eq_refl).
  discriminate H.
Qed.

(** C3, amended.  In every reachable state with T live and subscriber set S,
    a WhiteboardUpdate for T on an open socket [c] changes no state and is
    delivered verbatim to exactly the sockets in T's room other than [c]:
    every open subscriber other than [c] is among them and [c] is not; and on
    a conforming run, when [c] is T's teacher-of-record, the recipients are
    exactly S. *)
Theorem C3_whiteboardUpdate_fan_out st c students data :
  reachable st → c ∈ dom (sockets st) →
  liveTeachers st !! teacherId data = Some students →
  ∃ recipients,
    step st (Message c (WhiteboardUpdateIn data))
    = (st, [(recipients, WhiteboardUpdateOut data)]) ∧
    recipients = room_members (room_of (teacherId data)) (sockets st) ∖ {[c]} ∧
    (c ∉ recipients) ∧
    (∀ r, r ∈ students → r ∈ dom (sockets st) → r ≠ c → r ∈ recipients) ∧
    (conforming st → currentTeacherId_of c st = Some (teacherId data) →
     isStudent_of c st = false → recipients = students).
Proof.
  intros Hst Hc Hlive. eexists. rewrite step_message by done.
  split; [reflexivity|]. split; [done|]. split; [set_solver|]. split.
  - intros r Hr Hopen Hne. apply elem_of_difference. split; [|set_solver].
    by apply (subscriber_in_room _ _ students).
  - intros Hconf Hcur Hstud. by apply whiteboardUpdate_exact.
Qed.

Lemma C3_witness :
  let st := exec [Connection; Connection;
                  Message 0 (StartLive "t1"); Message 1 (JoinTeacherRoom "t1")] in
  let data := mkWhiteboardUpdate "t1" "[]" in
  ∃ recipients,
    step st (Message 0 (WhiteboardUpdateIn data))
    = (st, [(recipients, WhiteboardUpdateOut data)]) ∧
    recipients = room_members (room_of (teacherId data)) (sockets st) ∖ {[0]} ∧
    (0 ∉ recipients) ∧
    (∀ r, r ∈ ({[1]} : gset nat) → r ∈ dom (sockets st) → r ≠ 0 → r ∈ recipients) ∧
    (conforming st → currentTeacherId_of 0 st = Some (teacherId data) →
     isStudent_of 0 st = false → recipients = {[1]}).
Proof.
  apply (C3_whiteboardUpdate_fan_out _ 0 {[1]} (mkWhiteboardUpdate "t1" "[]")).
  - apply reachable_exec.
  - vm_compute. reflexivity.
  - vm_compute. reflexivity.
Defined.

(** The scenario of the specification: the run conforms, and the emissions
    are the four the specification lists. *)
Example scenario :
  let evs := [Connection; Connection;
              Message 0 (StartLive "t1"); Message 1 (JoinTeacherRoom "t1")] in
  let data := mkWhiteboardUpdate "t1" "[...]" in
  conforming (exec evs) ∧
  (run (evs ++ [Message 0 (WhiteboardUpdateIn data); Message 0 (StopLive "t1")])
       initial).2
  = [({[0; 1]}, TeacherOnline "t1"); ({[1]}, TeacherOnline "t1");
     ({[1]}, WhiteboardUpdateOut data); ({[0; 1]}, TeacherOffline "t1")].
Proof.
  split.
  - apply conforming_run; [constructor|]. simpl. split_and!; done.
  - vm_compute. reflexivity.
Qed.

(** * Disconnect *)

Lemma on_disconnect_student st c s :
  sockets st !! c = Some s → isStudent s = true →
  on_disconnect c st
  = (mkRelay
       (match currentTeacherId s with
        | Some tid =>
            if truthy (Some tid)
            then alter (λ students, students ∖ {[c]}) tid (liveTeachers st)
            else liveTeachers st
        | None => liveTeachers st
        end)
       (currentLiveTeacher st) (delete c (sockets st)) (nextSocket st), []).
Proof.
  intros Hs Hstud. unfold on_disconnect, currentTeacherId_of, isStudent_of.
  rewrite Hs. simpl. rewrite Hstud.
  destruct (currentTeacherId s) as [tid|]; [|done].
  by destruct tid.
Qed.

(** For a non-empty identifier the disconnect of the teacher-of-record is
    StopLive on that socket followed by its closing. *)
Lemma disconnect_teacher_is_stopLive st c s tid :
  sockets st !! c = Some s →
  currentTeacherId s = Some tid → isStudent s = false → tid ≠ "" →
  step st (Disconnect c) = close c (step st (Message c (StopLive tid))).
Proof.
  intros Hs Hcur Hstud Hne.
  assert (c ∈ dom (sockets st)) as Hc by (apply elem_of_dom; eauto).
  rewrite step_disconnect, step_message by done.
  unfold on_disconnect, currentTeacherId_of, isStudent_of, close. rewrite Hs.
  simpl. rewrite Hcur, Hstud, (proj2 (truthy_Some tid) Hne).
  destruct (liveTeachers st !! tid) as [students|] eqn:Hlive.
  - rewrite (on_stopLive_live _ _ _ _ Hlive).
    unfold tear_down, io_emit, with_sockets, currentTeacherId_of. simpl.
    rewrite Hs. simpl. destruct (decide (currentTeacherId s = Some tid)); [|done].
    by rewrite dom_evict, dom_delete_L, !delete_alter_eq, evict_delete.
  - unfold on_stopLive, currentTeacherId_of, with_sockets. rewrite Hlive, Hs.
    simpl. destruct (decide (currentTeacherId s = Some tid)); [|done].
    simpl. by rewrite !delete_alter_eq.
Qed.

(** C2 (the code departs from the claim).  The claim: the disconnect of the
    teacher-of-record of the live teacher T acts as StopLive(T).  The
    handler tests [if (currentTeacherId)]: for the teacher that went live
    under the empty identifier the test fails and the disconnect does
    nothing, so the session, CurrentLiveTeacher and the subscriber's room
    membership stay and no teacherOffline is sent, while StopLive("") on the
    same state tears all of it down. *)
Theorem C2_disconnect_empty_id :
  let st := exec [Connection; Connection;
                  Message 0 (StartLive ""); Message 1 (JoinTeacherRoom "")] in
  let rd := step st (Disconnect 0) in
  let rs := step st (Message 0 (StopLive "")) in
  currentLiveTeacher st = Some "" ∧
  liveTeachers st = {[ "" := {[1]} ]} ∧
  currentTeacherId_of 0 st = Some "" ∧
  isStudent_of 0 st = false ∧
  rd.2 = [] ∧
  liveTeachers rd.1 = {[ "" := {[1]} ]} ∧
  currentLiveTeacher rd.1 = Some "" ∧
  room_members (room_of "") (sockets rd.1) = {[1]} ∧
  rs.2 = [({[0; 1]}, TeacherOffline "")] ∧
  liveTeachers rs.1 = ∅ ∧
  currentLiveTeacher rs.1 = None ∧
  room_members (room_of "") (sockets rs.1) = ∅.
Proof. vm_compute. done. Qed.

(** C8, as stated, fails: after [stale_host], socket 3 joins "t1" and
    disconnects; the subscriber set is then empty, yet the update of the
    teacher-of-record, socket 2, is delivered to socket 0. *)
Lemma C8_counterexample :
  ¬ (∀ st B c tid students data,
       reachable st → liveTeachers st !! tid = Some students → B ∈ students →
       B ∈ dom (sockets st) →
       currentTeacherId_of c st = Some tid → isStudent_of c st = false →
       teacherId data = tid →
       let st' := (step st (Disconnect B)).1 in
       liveTeachers st' = <[tid := students ∖ {[B]}]> (liveTeachers st) ∧
       currentLiveTeacher st' = currentLiveTeacher st ∧
       (∀ c', c' ≠ B → sockets st' !! c' = sockets st !! c') ∧
       step st' (Message c (WhiteboardUpdateIn data))
       = (st', [(students ∖ {[B]}, WhiteboardUpdateOut data)])).
Proof.
  intros H.
  specialize (H (exec (stale_host ++ [Connection; Message 3 (JoinTeacherRoom "t1")]))
                3 2 "t1" {[3]} (mkWhiteboardUpdate "t1" "[]")
                (reachable_exec _)).
  destruct H as (_ & _ & _ & H); try (vm_compute; reflexivity).
  vm_compute in H. discriminate H.
Qed.

(** C8, amended.  In a reachable state let T, a non-empty identifier, be live
    with subscriber set S, and let B in S have T as its associated teacher
    id.  The disconnect of B sends nothing, removes B from S and closes B,
    and changes nothing else: the session stays, CurrentLiveTeacher and all
    other sockets are as before.  A following WhiteboardUpdate for T on an
    open socket [c] is delivered to exactly the sockets of T's room other
    than B and [c], which include every remaining open subscriber; on a
    conforming run, when [c] is T's teacher-of-record, they are exactly the
    remaining subscribers. *)
Theorem C8_subscriber_disconnect st B tid students :
  reachable st → liveTeachers st !! tid = Some students → B ∈ students →
  currentTeacherId_of B st = Some tid → tid ≠ "" →
  ∃ st',
    step st (Disconnect B) = (st', []) ∧
    liveTeachers st' = <[tid := students ∖ {[B]}]> (liveTeachers st) ∧
    currentLiveTeacher st' = currentLiveTeacher st ∧
    sockets st' = delete B (sockets st) ∧
    nextSocket st' = nextSocket st ∧
    ∀ c data, c ∈ dom (sockets st') → teacherId data = tid →
      ∃ recipients,
        step st' (Message c (WhiteboardUpdateIn data))
        = (st', [(recipients, WhiteboardUpdateOut data)]) ∧
        recipients
        = room_members (room_of tid) (sockets st) ∖ {[B]} ∖ {[c]} ∧
        (B ∉ recipients) ∧ (c ∉ recipients) ∧
        (∀ r, r ∈ students ∖ {[B]} → r ∈ dom (sockets st') → r ≠ c →
              r ∈ recipients) ∧
        (conforming st → currentTeacherId_of c st' = Some tid →
         isStudent_of c st' = false → recipients = students ∖ {[B]}).
Proof.
  intros Hst Hlive HB Hcur Hne.
  unfold currentTeacherId_of in Hcur.
  destruct (sockets st !! B) as [s|] eqn:Hs; [simpl in Hcur|done].
  assert (B ∈ dom (sockets st)) as Hopen by (apply elem_of_dom; eauto).
  destruct (inv_subscriber _ (reachable_inv _ Hst) _ _ _ _ Hlive HB Hs)
    as [_ Hstud].
  pose proof (step_disconnect st B Hopen) as Hstep.
  rewrite (on_disconnect_student _ _ s) in Hstep by done.
  rewrite Hcur, (proj2 (truthy_Some tid) Hne) in Hstep.
  eexists. split; [exact Hstep|].
  cbn [liveTeachers currentLiveTeacher sockets nextSocket].
  split; [by apply (alter_insert_Some (λ X : gset nat, X ∖ {[B]}))|].
  do 3 (split; [done|]).
  intros c data Hc Hd. eexists. rewrite step_message by done.
  split; [reflexivity|].
  cbn [liveTeachers currentLiveTeacher sockets nextSocket].
  rewrite Hd, room_members_delete.
  split; [done|]. split; [set_solver|]. split; [set_solver|]. split.
  - intros r [Hr HrB]%elem_of_difference Hopenr Hrc.
    apply elem_of_difference. split; [|set_solver].
    apply elem_of_difference. split; [|done].
    apply (subscriber_in_room _ _ students); try done.
    rewrite dom_delete_L in Hopenr. set_solver.
  - intros Hconf Hcurc Hstudc.
    pose proof (conforming_step _ (Disconnect B) Hconf I) as Hconf'.
    rewrite Hstep in Hconf'. rewrite <-room_members_delete.
    apply (whiteboardUpdate_exact _ c tid (students ∖ {[B]}) Hconf');
      [|done..].
    simpl. by rewrite lookup_alter_eq, Hlive.
Qed.

Lemma C8_witness :
  let st := exec [Connection; Connection;
                  Message 0 (StartLive "t1"); Message 1 (JoinTeacherRoom "t1")] in
  ∃ st',
    step st (Disconnect 1) = (st', []) ∧
    liveTeachers st' = <["t1" := {[1]} ∖ {[1]}]> (liveTeachers st) ∧
    currentLiveTeacher st' = currentLiveTeacher st ∧
    sockets st' = delete 1 (sockets st) ∧
    nextSocket st' = nextSocket st ∧
    ∀ c data, c ∈ dom (sockets st') → teacherId data = "t1" →
      ∃ recipients,
        step st' (Message c (WhiteboardUpdateIn data))
        = (st', [(recipients, WhiteboardUpdateOut data)]) ∧
        recipients
        = room_members (room_of "t1") (sockets st) ∖ {[1]} ∖ {[c]} ∧
        (1 ∉ recipients) ∧ (c ∉ recipients) ∧
        (∀ r, r ∈ ({[1]} : gset nat) ∖ {[1]} → r ∈ dom (sockets st') → r ≠ c →
              r ∈ recipients) ∧
        (conforming st → currentTeacherId_of c st' = Some "t1" →
         isStudent_of c st' = false → recipients = {[1]} ∖ {[1]}).
Proof.
  apply (C8_subscriber_disconnect _ 1 "t1" {[1]}).
  - apply reachable_exec.
  - vm_compute. reflexivity.
  - vm_compute. reflexivity.
  - vm_compute. reflexivity.
  - discriminate.
Defined.

(** * The role hint *)

Lemma isStudent_of_true st c :
  isStudent_of c st = true ↔ ∃ s, sockets st !! c = Some s ∧ isStudent s = true.
Proof.
  unfold isStudent_of. destruct (sockets st !! c) as [s|]; simpl; naive_solver.
Qed.

Lemma isStudent_on_message st c' m c :
  isStudent_of c st = true → isStudent_of c (on_message c' m st).1 = true.
Proof.
  rewrite !isStudent_of_true. intros (s & Hs & Hstud).
  destruct m as [|tid|tid|data|tid|tid]; simpl.
  - unfold on_checkTeacherStatus. destruct (currentLiveTeacher st); [|by eauto].
    destruct (truthy _); eauto.
  - unfold on_startLive. destruct (truthy _); simpl; [by eauto|].
    lookups. rewrite Hs. simpl. eexists. split; [done|].
    by repeat case_decide.
  - unfold on_stopLive. destruct (liveTeachers st !! tid); simpl.
    + case_decide; simpl; lookups; rewrite Hs; simpl;
        (eexists; split; [done|]); by repeat case_decide.
    + case_decide; simpl; [|by eauto]. lookups; rewrite Hs; simpl.
      eexists; split; [done|]. by repeat case_decide.
  - eauto.
  - unfold on_joinTeacherRoom. destruct (liveTeachers st !! tid); simpl; [|by eauto].
    lookups. rewrite Hs. simpl. eexists. split; [done|]. by repeat case_decide.
  - unfold on_leaveTeacherRoom. simpl. case_decide; lookups; rewrite Hs; simpl;
      (eexists; split; [done|]); by repeat case_decide.
Qed.

Lemma isStudent_on_disconnect st c' c :
  c' ≠ c → isStudent_of c st = true → isStudent_of c (on_disconnect c' st).1 = true.
Proof.
  rewrite !isStudent_of_true. intros Hne (s & Hs & Hstud).
  assert (delete c' (sockets st) !! c = Some s) as Hs'
    by by rewrite lookup_delete_ne.
  unfold on_disconnect, with_liveTeachers, with_sockets.
  destruct (currentTeacherId_of c' st) as [tid|]; simpl; [|by eauto].
  destruct tid as [|a tid]; simpl; [by eauto|].
  destruct (isStudent_of c' st); simpl; [by eauto|].
  destruct (liveTeachers st !! _); simpl; [|by eauto].
  rewrite evict_lookup, Hs'. simpl.
  eexists. split; [done|]. by case_decide.
Qed.

Lemma isStudent_step st ev c :
  reachable st → ev ≠ Disconnect c →
  isStudent_of c st = true → isStudent_of c (step st ev).1 = true.
Proof.
  intros Hst Hev Hstud. destruct ev as [|c' m|c']; unfold step.
  - apply isStudent_of_true in Hstud as (s & Hs & Hstud).
    apply isStudent_of_true. exists s. split; [|done]. simpl.
    rewrite lookup_insert_ne; [done|].
    assert (c < nextSocket st); [|lia].
    apply (inv_open_fresh _ (reachable_inv _ Hst)), elem_of_dom. eauto.
  - case_decide; [|done]. by apply isStudent_on_message.
  - case_decide; [|done]. apply isStudent_on_disconnect; [congruence|done].
Qed.

Lemma isStudent_run evs st c :
  reachable st → Forall (λ ev, ev ≠ Disconnect c) evs →
  isStudent_of c st = true → isStudent_of c (run evs st).1 = true.
Proof.
  revert st. induction evs as [|ev evs IH]; intros st Hst Hevs Hstud; [done|].
  apply Forall_cons in Hevs as [Hev Hevs]. simpl.
  pose proof (reachable_step _ ev Hst) as Hst1.
  pose proof (isStudent_step _ _ _ Hst Hev Hstud) as Hstud1.
  destruct (step st ev) as [st1 out1]. simpl in *.
  specialize (IH _ Hst1 Hevs Hstud1). by destruct (run evs st1).
Qed.

(** C10.  [isStudent] is false on a fresh socket; a JoinTeacherRoom that
    finds a session sets it; after that no run of events other than the
    socket's own disconnect clears it; and the disconnect of such a socket
    runs the subscriber side only: nothing is sent, CurrentLiveTeacher is
    unchanged, no session is deleted, and the socket is at most removed from
    the subscriber set of its associated teacher. *)
Theorem C10_isStudent_monotone st c tid students evs :
  reachable st → c ∈ dom (sockets st) →
  liveTeachers st !! tid = Some students →
  Forall (λ ev, ev ≠ Disconnect c) evs →
  let st1 := (step st (Message c (JoinTeacherRoom tid))).1 in
  let st2 := (run evs st1).1 in
  isStudent_of (nextSocket st) (step st Connection).1 = false ∧
  isStudent_of c st1 = true ∧
  isStudent_of c st2 = true ∧
  ∃ st3,
    step st2 (Disconnect c) = (st3, []) ∧
    currentLiveTeacher st3 = currentLiveTeacher st2 ∧
    ∀ tid', liveTeachers st3 !! tid'
            = (λ S, if decide (currentTeacherId_of c st2 = Some tid' ∧ tid' ≠ "")
                    then S ∖ {[c]} else S) <$> liveTeachers st2 !! tid'.
Proof.
  intros Hst Hc Hlive Hevs st1 st2.
  assert (isStudent_of c st1 = true) as Hstud1.
  { subst st1. rewrite step_message by done. simpl.
    unfold on_joinTeacherRoom. rewrite Hlive. apply isStudent_of_true. simpl.
    apply elem_of_dom in Hc as [s Hs]. lookups. rewrite Hs. simpl.
    eexists. split; [done|]. by rewrite !decide_True. }
  assert (isStudent_of c st2 = true) as Hstud2.
  { apply isStudent_run; [|done..]. apply reachable_step, Hst. }
  split_and!; [|done..|].
  { unfold isStudent_of. simpl. by rewrite lookup_insert_eq. }
  apply isStudent_of_true in Hstud2 as (s & Hs & Hstud).
  assert (c ∈ dom (sockets st2)) as Hc2 by (apply elem_of_dom; eauto).
  rewrite step_disconnect by done.
  rewrite (on_disconnect_student _ _ s) by done.
  eexists. split; [reflexivity|]. split; [done|].
  intros tid'. cbn [liveTeachers]. unfold currentTeacherId_of. rewrite Hs. simpl.
  destruct (currentTeacherId s) as [t|] eqn:Hcur.
  - destruct t as [|a t]; cbv iota.
    + destruct (liveTeachers st2 !! tid'); simpl; [|done].
      rewrite decide_False; [done|]. by intros [[= <-] Hne].
    + rewrite lookup_alter.
      destruct (decide (String a t = tid')) as [<-|Hne].
      * destruct (liveTeachers st2 !! _); simpl; [|done].
        by rewrite decide_True.
      * destruct (liveTeachers st2 !! tid'); simpl; [|done].
        rewrite decide_False; [done|]. by intros [[= ?] _].
  - destruct (liveTeachers st2 !! tid'); simpl; done.
Qed.

(** After the join, socket 1 leaves, the teacher stops, and socket 1 goes
    live itself as "t2". *)
Lemma C10_witness :
  let st := exec [Connection; Connection; Message 0 (StartLive "t1")] in
  let evs := [Message 1 (LeaveTeacherRoom "t1"); Message 0 (StopLive "t1");
              Message 1 (StartLive "t2")] in
  let st1 := (step st (Message 1 (JoinTeacherRoom "t1"))).1 in
  let st2 := (run evs st1).1 in
  isStudent_of (nextSocket st) (step st Connection).1 = false ∧
  isStudent_of 1 st1 = true ∧
  isStudent_of 1 st2 = true ∧
  ∃ st3,
    step st2 (Disconnect 1) = (st3, []) ∧
    currentLiveTeacher st3 = currentLiveTeacher st2 ∧
    ∀ tid', liveTeachers st3 !! tid'
            = (λ S, if decide (currentTeacherId_of 1 st2 = Some tid' ∧ tid' ≠ "")
                    then S ∖ {[1]} else S) <$> liveTeachers st2 !! tid'.
Proof.
  apply (C10_isStudent_monotone _ 1 "t1" ∅).
  - apply reachable_exec.
  - vm_compute. reflexivity.
  - vm_compute. reflexivity.
  - repeat constructor; discriminate.
Defined.

(** At the end of that run socket 1 is live as "t2" with [isStudent] still
    set: its disconnect leaves the session and [currentLiveTeacher] in
    place. *)
Example student_goes_live_then_disconnects :
  let st2 := exec [Connection; Connection; Message 0 (StartLive "t1");
                   Message 1 (JoinTeacherRoom "t1");
                   Message 1 (LeaveTeacherRoom "t1"); Message 0 (StopLive "t1");
                   Message 1 (StartLive "t2")] in
  currentLiveTeacher st2 = Some "t2" ∧
  currentTeacherId_of 1 st2 = Some "t2" ∧
  isStudent_of 1 st2 = true ∧
  (step st2 (Disconnect 1)).2 = [] ∧
  currentLiveTeacher (step st2 (Disconnect 1)).1 = Some "t2" ∧
  liveTeachers (step st2 (Disconnect 1)).1 = {[ "t2" := ∅ ]}.
Proof. vm_compute. done. Qed.

(** * What a step emits, and why *)

(** Every path through the handlers: the event, the tests the handler makes
    and, for [stopLive], the closed form of its result. *)
Ltac handler_cases st ev :=
  let c := fresh "c" in
  let Hc := fresh "Hc" in
  destruct ev as [|c [|t|t|d|t|t]|c]; unfold step;
  [ unfold on_connection
  | destruct (decide (c ∈ dom (sockets st))) as [Hc|Hc];
    [ cbn [on_message]; unfold on_checkTeacherStatus;
      destruct (currentLiveTeacher st) as [t|] eqn:Hcur;
      [ destruct (truthy (Some t)) eqn:Ht | ]
    | ]
  | destruct (decide (c ∈ dom (sockets st))) as [Hc|Hc];
    [ cbn [on_message]; unfold on_startLive;
      destruct (truthy (currentLiveTeacher st)) eqn:Ht
    | ]
  | destruct (decide (c ∈ dom (sockets st))) as [Hc|Hc];
    [ cbn [on_message];
      destruct (liveTeachers st !! t) as [X|] eqn:Hlive;
      [ rewrite (on_stopLive_live _ _ _ _ Hlive)
      | unfold on_stopLive; rewrite Hlive;
        destruct (decide (currentTeacherId_of c st = Some t)) ]
    | ]
  | destruct (decide (c ∈ dom (sockets st))) as [Hc|Hc];
    [ cbn [on_message]; unfold on_whiteboardUpdate, broadcast_to | ]
  | destruct (decide (c ∈ dom (sockets st))) as [Hc|Hc];
    [ cbn [on_message]; unfold on_joinTeacherRoom;
      destruct (liveTeachers st !! t) as [X|] eqn:Hlive
    | ]
  | destruct (decide (c ∈ dom (sockets st))) as [Hc|Hc];
    [ cbn [on_message]; unfold on_leaveTeacherRoom | ]
  | destruct (decide (c ∈ dom (sockets st))) as [Hc|Hc];
    [ unfold on_disconnect;
      destruct (currentTeacherId_of c st) as [t|] eqn:Hcur;
      cbv beta iota zeta;
      [ destruct (truthy (Some t)) eqn:Ht;
        [ destruct (isStudent_of c st) eqn:Hstud;
          [ | destruct (liveTeachers (with_sockets st (delete c (sockets st)))
                          !! t) as [X|] eqn:Hlive ]
        | ]
      | ]
    | ] ];
  cbn [fst snd].

(** The goal is about a member of the emissions: none, or one that is not
    the one looked for. *)
Ltac no_such_emission :=
  first [ by intros ?%elem_of_nil
        | by intros [= ? ?]%list_elem_of_singleton ].

Lemma disconnect_closes st c : c ∉ dom (sockets (step st (Disconnect c)).1).
Proof.
  remember (Disconnect c) as ev eqn:Hev.
  handler_cases st ev; simplify_eq; simpl;
    rewrite ?dom_evict, ?dom_delete_L; set_solver.
Qed.

(** X1.  The relay addresses messages to open sockets only: whatever a
    step emits goes to sockets that are open after the step, and nothing
    goes to a socket that is disconnecting. *)
Theorem X1_emissions_to_open_sockets st ev e :
  e ∈ (step st ev).2 →
  e.1 ⊆ dom (sockets (step st ev).1) ∧ ∀ c, ev = Disconnect c → c ∉ e.1.
Proof.
  intros He.
  cut (e.1 ⊆ dom (sockets (step st ev).1)).
  { intros Hsub. split; [done|]. intros c ->.
    pose proof (disconnect_closes st c) as Hc. clear -Hsub Hc. set_solver. }
  revert He.
  handler_cases st ev; try no_such_emission;
    intros ->%list_elem_of_singleton; cbn [fst snd sockets];
    rewrite ?dom_alter_L; try done.
  - simpl. clear -Hc. set_solver.
  - simpl. clear -Hc. set_solver.
  - simpl. by rewrite !dom_alter_L.
  - destruct (decide (currentTeacherId_of c st = Some t));
      by rewrite ?dom_alter_L, dom_evict.
  - pose proof (room_members_open (room_of (teacherId d)) (sockets st)) as H.
    clear -H. set_solver.
  - simpl. clear -Hc. set_solver.
Qed.

Lemma X1_witness :
  let st := exec [Connection; Connection; Message 0 (StartLive "t1")] in
  let ev := Disconnect 0 in
  let e : Emission := ({[1]}, TeacherOffline "t1") in
  e.1 ⊆ dom (sockets (step st ev).1) ∧ ∀ c, ev = Disconnect c → c ∉ e.1.
Proof.
  apply (X1_emissions_to_open_sockets
           (exec [Connection; Connection; Message 0 (StartLive "t1")])
           (Disconnect 0) ({[1]}, TeacherOffline "t1")).
  vm_compute. apply list_elem_of_here.
Defined.

(** X2.  [liveError] has one cause: a [startLive] on an open socket while
    [currentLiveTeacher] is truthy.  It goes to the caller alone, with the
    fixed text, and the state is untouched. *)
Theorem X2_liveError_only_rejected_startLive st ev to message :
  (to, LiveError message) ∈ (step st ev).2 →
  ∃ c tid,
    ev = Message c (StartLive tid) ∧ c ∈ dom (sockets st) ∧
    truthy (currentLiveTeacher st) = true ∧
    step st ev = (st, [({[c]}, LiveError liveError_message)]).
Proof.
  handler_cases st ev; try no_such_emission.
  intros _. by exists c, t.
Qed.

Lemma X2_witness :
  let st := exec [Connection; Connection; Message 0 (StartLive "t1")] in
  let ev := Message 1 (StartLive "t2") in
  ∃ c tid,
    ev = Message c (StartLive tid) ∧ c ∈ dom (sockets st) ∧
    truthy (currentLiveTeacher st) = true ∧
    step st ev = (st, [({[c]}, LiveError liveError_message)]).
Proof.
  apply (X2_liveError_only_rejected_startLive
           (exec [Connection; Connection; Message 0 (StartLive "t1")])
           (Message 1 (StartLive "t2")) {[1]} liveError_message).
  vm_compute. apply list_elem_of_here.
Defined.

(** X3.  In a reachable state the relay announces a teacher as online
    only if that teacher has a session after the step, and only in three
    ways: to every open socket for an accepted [startLive], or to the one
    socket that sent [joinTeacherRoom] or [checkTeacherStatus]. *)
Theorem X3_teacherOnline_sound st ev to tid :
  reachable st → (to, TeacherOnline tid) ∈ (step st ev).2 →
  is_Some (liveTeachers (step st ev).1 !! tid) ∧
  ∃ c, c ∈ dom (sockets st) ∧
    ((ev = Message c (StartLive tid) ∧ to = dom (sockets st)) ∨
     (ev = Message c (JoinTeacherRoom tid) ∧ to = {[c]}) ∨
     (ev = Message c CheckTeacherStatus ∧ to = {[c]})).
Proof.
  intros Hinv%reachable_inv.
  handler_cases st ev; try no_such_emission;
    intros [= -> ->]%list_elem_of_singleton.
  - split; [by apply (inv_current_live _ Hinv)|].
    exists c. split; [done|]. by right; right.
  - split; [simpl; rewrite lookup_insert_eq; eauto|].
    exists c. split; [done|]. left. split; [done|]. simpl.
    by rewrite !dom_alter_L.
  - split; [simpl; rewrite lookup_insert_eq; eauto|].
    exists c. split; [done|]. by right; left.
Qed.

Lemma X3_witness :
  let st := exec [Connection; Connection; Message 0 (StartLive "t1")] in
  let ev := Message 1 (JoinTeacherRoom "t1") in
  is_Some (liveTeachers (step st ev).1 !! "t1") ∧
  ∃ c, c ∈ dom (sockets st) ∧
    ((ev = Message c (StartLive "t1") ∧ ({[1]} : gset nat) = dom (sockets st)) ∨
     (ev = Message c (JoinTeacherRoom "t1") ∧ ({[1]} : gset nat) = {[c]}) ∨
     (ev = Message c CheckTeacherStatus ∧ ({[1]} : gset nat) = {[c]})).
Proof.
  apply (X3_teacherOnline_sound
           (exec [Connection; Connection; Message 0 (StartLive "t1")])
           (Message 1 (JoinTeacherRoom "t1")) {[1]} "t1").
  - apply reachable_exec.
  - vm_compute. apply list_elem_of_here.
Defined.

(** X4.  The relay sends a [whiteboardUpdate] only when it receives one:
    the payload is the one received, the recipients are the room of the
    teacher the payload names without the sender, and the state is
    untouched. *)
Theorem X4_whiteboardUpdate_only_relayed st ev to data :
  (to, WhiteboardUpdateOut data) ∈ (step st ev).2 →
  ∃ c, ev = Message c (WhiteboardUpdateIn data) ∧ c ∈ dom (sockets st) ∧
       to = room_members (room_of (teacherId data)) (sockets st) ∖ {[c]} ∧
       step st ev = (st, [(to, WhiteboardUpdateOut data)]).
Proof.
  handler_cases st ev; try no_such_emission.
  intros [= -> ->]%list_elem_of_singleton. exists c.
  by split_and!.
Qed.

Lemma X4_witness :
  let st := exec [Connection; Connection;
                  Message 0 (StartLive "t1"); Message 1 (JoinTeacherRoom "t1")] in
  let data := mkWhiteboardUpdate "t1" "[]" in
  let ev := Message 0 (WhiteboardUpdateIn data) in
  ∃ c, ev = Message c (WhiteboardUpdateIn data) ∧ c ∈ dom (sockets st) ∧
       ({[1]} : gset nat)
       = room_members (room_of (teacherId data)) (sockets st) ∖ {[c]} ∧
       step st ev = (st, [({[1]}, WhiteboardUpdateOut data)]).
Proof.
  apply (X4_whiteboardUpdate_only_relayed
           (exec [Connection; Connection;
                  Message 0 (StartLive "t1"); Message 1 (JoinTeacherRoom "t1")])
           (Message 0 (WhiteboardUpdateIn (mkWhiteboardUpdate "t1" "[]")))
           {[1]} (mkWhiteboardUpdate "t1" "[]")).
  vm_compute. apply list_elem_of_here.
Defined.

(** A step keeps every session and says [teacherOffline] to nobody, or it
    deletes exactly one session and says so to every open socket; the second
    happens for [stopLive] and for the disconnect of a socket that is not a
    student and whose teacher id, not empty, has the session. *)
Lemma step_sessions st ev :
  ((∀ tid, is_Some (liveTeachers st !! tid) →
           is_Some (liveTeachers (step st ev).1 !! tid)) ∧
   (∀ to tid, (to, TeacherOffline tid) ∉ (step st ev).2))
  ∨ ∃ tid students c,
      liveTeachers st !! tid = Some students ∧
      liveTeachers (step st ev).1 = delete tid (liveTeachers st) ∧
      (step st ev).2 = [(dom (sockets (step st ev).1), TeacherOffline tid)] ∧
      c ∈ dom (sockets st) ∧
      (ev = Message c (StopLive tid)
       ∨ (ev = Disconnect c ∧ currentTeacherId_of c st = Some tid ∧
          isStudent_of c st = false ∧ tid ≠ "")).
Proof.
  handler_cases st ev;
    try (left; split;
         [done|intros ??; first [apply not_elem_of_nil|no_such_emission]]).
  - left. split; [|intros ??; no_such_emission].
    intros t' Hl. simpl. rewrite lookup_insert.
    destruct (decide (t = t')); eauto.
  - right. exists t, X, c. simpl. split_and!; try done; [|by left].
    by destruct (decide (currentTeacherId_of c st = Some t));
      rewrite ?dom_alter_L, dom_evict.
  - left. split; [|intros ??; no_such_emission].
    intros t' Hl. simpl. rewrite lookup_insert.
    destruct (decide (t = t')); eauto.
  - left. split; [|intros ??; apply not_elem_of_nil].
    intros t' Hl. simpl. rewrite lookup_alter.
    destruct (decide (t = t')) as [->|]; [by apply fmap_is_Some|done].
  - left. split; [|intros ??; apply not_elem_of_nil].
    intros t' Hl. simpl. rewrite lookup_alter.
    destruct (decide (t = t')) as [->|]; [by apply fmap_is_Some|done].
  - right. exists t, X, c. simpl. split_and!; try done.
    right. split_and!; try done. by apply truthy_Some.
Qed.

(** X5.  [teacherOffline] for a teacher is sent exactly when a step ends
    that teacher's session, and then it is the only message of the step and
    goes to every socket that is open after it. *)
Theorem X5_teacherOffline_iff_session_ends st ev tid :
  ((∃ to, (to, TeacherOffline tid) ∈ (step st ev).2)
   ↔ is_Some (liveTeachers st !! tid) ∧
     liveTeachers (step st ev).1 !! tid = None)
  ∧ ((∃ to, (to, TeacherOffline tid) ∈ (step st ev).2) →
     (step st ev).2 = [(dom (sockets (step st ev).1), TeacherOffline tid)]).
Proof.
  destruct (step_sessions st ev) as [[Hkeep Hno]|(t & S & c & Hl & Hl' & Hout & _)].
  - split; [split|].
    + intros [to Hin]. by destruct (Hno to tid).
    + intros [Hs Hn]. apply Hkeep in Hs. rewrite Hn in Hs. by destruct Hs.
    + intros [to Hin]. by destruct (Hno to tid).
  - rewrite Hout, Hl'. split; [split|].
    + intros [to [= -> ->]%list_elem_of_singleton].
      split; [by eauto|]. apply lookup_delete_eq.
    + intros [Hs Hn]. destruct (decide (t = tid)) as [->|Hne].
      * eexists. by apply list_elem_of_singleton.
      * rewrite lookup_delete_ne in Hn by done. rewrite Hn in Hs. by destruct Hs.
    + by intros [to [= -> ->]%list_elem_of_singleton].
Qed.

(** X6.  A session ends in two ways only: a [stopLive] for its teacher on
    any open socket, or the disconnect of a socket whose [isStudent] is
    false and whose [currentTeacherId] is the session's teacher and not the
    empty string.  No other event removes a session. *)
Theorem X6_session_ends_only_by st ev tid :
  is_Some (liveTeachers st !! tid) →
  liveTeachers (step st ev).1 !! tid = None →
  ∃ c, c ∈ dom (sockets st) ∧
    (ev = Message c (StopLive tid)
     ∨ (ev = Disconnect c ∧ currentTeacherId_of c st = Some tid ∧
        isStudent_of c st = false ∧ tid ≠ "")).
Proof.
  intros Hs Hn.
  destruct (step_sessions st ev) as [[Hkeep _]|(t & S & c & Hl & Hl' & _ & Hc & Hev)].
  - apply Hkeep in Hs. rewrite Hn in Hs. by destruct Hs.
  - destruct (decide (t = tid)) as [->|Hne]; [by eauto|].
    rewrite Hl', lookup_delete_ne in Hn by done. rewrite Hn in Hs. by destruct Hs.
Qed.

Lemma X6_witness :
  let st := exec [Connection; Connection; Message 0 (StartLive "t1")] in
  let ev := Disconnect 0 in
  ∃ c, c ∈ dom (sockets st) ∧
    (ev = Message c (StopLive "t1")
     ∨ (ev = Disconnect c ∧ currentTeacherId_of c st = Some "t1" ∧
        isStudent_of c st = false ∧ "t1" ≠ "")).
Proof.
  apply (X6_session_ends_only_by
           (exec [Connection; Connection; Message 0 (StartLive "t1")])
           (Disconnect 0) "t1").
  - vm_compute. eauto.
  - vm_compute. reflexivity.
Defined.

(** * Events that only read *)

Lemma readonly_step_state st ev : is_readonly ev = true → (step st ev).1 = st.
Proof.
  destruct ev as [|c [| | | | |]|c]; try done; intros _.
  - apply checkTeacherStatus_state.
  - unfold step. by destruct (decide (c ∈ dom (sockets st))).
Qed.

Lemma run_cons_state ev evs st :
  (run (ev :: evs) st).1 = (run evs (step st ev).1).1.
Proof. simpl. destruct (step st ev), (run evs _). done. Qed.

Lemma run_app_state evs1 evs2 st :
  (run (evs1 ++ evs2) st).1 = (run evs2 (run evs1 st).1).1.
Proof.
  revert st. induction evs1 as [|ev evs1 IH]; intros st; [done|].
  by rewrite <- app_comm_cons, !run_cons_state, IH.
Qed.

(** X7.  [checkTeacherStatus] and [whiteboardUpdate] leave no trace in the
    relay: striking them from any sequence of events, from any state, gives
    the same final state.  In particular the relay keeps nothing of the
    whiteboard. *)
Theorem X7_readonly_events_erasable evs st :
  (run (filter (λ ev, is_readonly ev = false) evs) st).1 = (run evs st).1.
Proof.
  revert st. induction evs as [|ev evs IH]; intros st; [done|].
  rewrite filter_cons. destruct (decide (is_readonly ev = false)) as [Hq|Hq].
  - by rewrite !run_cons_state, IH.
  - apply not_false_is_true in Hq.
    by rewrite run_cons_state, (readonly_step_state _ _ Hq), IH.
Qed.

(** * Joining and leaving a room *)

Lemma on_joinTeacherRoom_eq st c s tid students :
  sockets st !! c = Some s → liveTeachers st !! tid = Some students →
  on_joinTeacherRoom c tid st
  = (mkRelay (<[tid := students ∪ {[c]}]> (liveTeachers st))
       (currentLiveTeacher st)
       (<[c := mkSocket (Some tid) true ({[room_of tid]} ∪ rooms s)]> (sockets st))
       (nextSocket st),
     [({[c]}, TeacherOnline tid)]).
Proof.
  intros Hs Hl. unfold on_joinTeacherRoom. rewrite Hl. do 2 f_equal.
  apply map_eq. intros c'. rewrite !lookup_alter_fmap, lookup_insert.
  destruct (decide (c = c')) as [<-|]; [by rewrite Hs|].
  by destruct (sockets st !! c').
Qed.

Lemma on_leaveTeacherRoom_eq st c s tid :
  sockets st !! c = Some s →
  on_leaveTeacherRoom c tid st
  = (mkRelay (alter (λ students, students ∖ {[c]}) tid (liveTeachers st))
       (currentLiveTeacher st)
       (<[c := mkSocket
                 (if decide (currentTeacherId s = Some tid) then None
                  else currentTeacherId s)
                 (isStudent s) (rooms s ∖ {[room_of tid]})]> (sockets st))
       (nextSocket st), []).
Proof.
  intros Hs. unfold on_leaveTeacherRoom, currentTeacherId_of. rewrite Hs. simpl.
  do 2 f_equal.
  destruct (decide (currentTeacherId s = Some tid)) as [Heq|Hne].
  - by rewrite (alter_alter_insert _ _ _ _ s).
  - apply map_eq. intros c'. rewrite lookup_alter_fmap, lookup_insert.
    destruct (decide (c = c')) as [<-|]; [|by destruct (sockets st !! c')].
    rewrite Hs. by destruct s.
Qed.

(** X8.  Joining is idempotent: a second [joinTeacherRoom] for the same
    teacher on the same socket leaves the state of the first and sends the
    same reply again. *)
Theorem X8_join_idempotent st c tid :
  let r := step st (Message c (JoinTeacherRoom tid)) in
  step r.1 (Message c (JoinTeacherRoom tid)) = r.
Proof.
  intros r. subst r. unfold step at 2 3.
  destruct (decide (c ∈ dom (sockets st))) as [Hc|Hc]; simpl.
  - destruct (liveTeachers st !! tid) as [students|] eqn:Hl.
    + apply elem_of_dom in Hc as [s Hs].
      rewrite (on_joinTeacherRoom_eq _ _ s _ students) by done. simpl.
      rewrite step_message by (simpl; rewrite dom_insert; set_solver). simpl.
      erewrite on_joinTeacherRoom_eq;
        [|simpl; apply lookup_insert_eq|simpl; apply lookup_insert_eq].
      simpl. rewrite !insert_insert_eq.
      replace (students ∪ {[c]} ∪ {[c]}) with (students ∪ {[c]}) by set_solver.
      by replace ({[room_of tid]} ∪ ({[room_of tid]} ∪ rooms s))
        with ({[room_of tid]} ∪ rooms s) by set_solver.
    + unfold on_joinTeacherRoom. rewrite Hl. simpl.
      rewrite step_message by done. simpl.
      unfold on_joinTeacherRoom. by rewrite Hl.
  - unfold step. by rewrite decide_False.
Qed.

(** X9.  A socket that is neither a subscriber of a live teacher nor in
    the teacher's room, and joins and then leaves, puts the relay back where
    it was: the subscriber set, the rooms and every other socket are as
    before.  What stays of the visit is on the socket itself: [isStudent] is
    set and [currentTeacherId] is null, whatever it was before. *)
Theorem X9_join_then_leave st c s tid students :
  sockets st !! c = Some s → liveTeachers st !! tid = Some students →
  c ∉ students → room_of tid ∉ rooms s →
  run [Message c (JoinTeacherRoom tid); Message c (LeaveTeacherRoom tid)] st
  = (with_sockets st (<[c := mkSocket None true (rooms s)]> (sockets st)),
     [({[c]}, TeacherOnline tid)]).
Proof.
  intros Hs Hl Hc Hr.
  assert (c ∈ dom (sockets st)) as Hopen by (apply elem_of_dom; eauto).
  cbn [run]. rewrite step_message by done. cbn [on_message].
  rewrite (on_joinTeacherRoom_eq _ _ s _ students) by done.
  cbv beta iota zeta.
  rewrite step_message by (simpl; rewrite dom_insert; set_solver).
  cbn [on_message].
  erewrite on_leaveTeacherRoom_eq by (simpl; apply lookup_insert_eq).
  simpl. rewrite decide_True by done. rewrite insert_insert_eq.
  unfold with_sockets. do 2 f_equal.
  - rewrite (alter_insert_Some (λ X : gset nat, X ∖ {[c]}) _ _ (students ∪ {[c]}))
      by apply lookup_insert_eq.
    rewrite insert_insert_eq.
    replace ((students ∪ {[c]}) ∖ {[c]}) with students by set_solver.
    by apply insert_id.
  - do 2 f_equal. set_solver.
Qed.

Lemma X9_witness :
  let st := exec [Connection; Connection; Message 0 (StartLive "t1")] in
  run [Message 1 (JoinTeacherRoom "t1"); Message 1 (LeaveTeacherRoom "t1")] st
  = (with_sockets st (<[1 := mkSocket None true ∅]> (sockets st)),
     [({[1]}, TeacherOnline "t1")]).
Proof.
  apply (X9_join_then_leave
           (exec [Connection; Connection; Message 0 (StartLive "t1")])
           1 (mkSocket None false ∅) "t1" ∅).
  - vm_compute. reflexivity.
  - vm_compute. reflexivity.
  - apply not_elem_of_empty.
  - apply not_elem_of_empty.
Defined.

(** X10.  [leaveTeacherRoom] for teacher [tid] on an open socket sends
    nothing and touches only that socket and [tid]'s subscriber set: it ends
    no session, leaves [currentLiveTeacher] and all other sockets alone,
    takes the socket out of the set and out of the room, and no later update
    for [tid] is delivered to the socket. *)
Theorem X10_leave_frame st c s tid :
  sockets st !! c = Some s →
  ∃ st',
    step st (Message c (LeaveTeacherRoom tid)) = (st', []) ∧
    currentLiveTeacher st' = currentLiveTeacher st ∧
    dom (liveTeachers st') = dom (liveTeachers st) ∧
    (∀ t, t ≠ tid → liveTeachers st' !! t = liveTeachers st !! t) ∧
    (∀ students, liveTeachers st !! tid = Some students →
                 liveTeachers st' !! tid = Some (students ∖ {[c]})) ∧
    (∀ c', c' ≠ c → sockets st' !! c' = sockets st !! c') ∧
    (c ∉ room_members (room_of tid) (sockets st')) ∧
    (∀ c' data, teacherId data = tid →
       ∀ e, e ∈ (step st' (Message c' (WhiteboardUpdateIn data))).2 → c ∉ e.1).
Proof.
  intros Hs.
  assert (c ∈ dom (sockets st)) as Hc by (apply elem_of_dom; eauto).
  rewrite step_message by done. simpl.
  rewrite (on_leaveTeacherRoom_eq _ _ s) by done.
  eexists. split; [reflexivity|]. simpl.
  assert (c ∉ room_members (room_of tid)
            (<[c := mkSocket
                 (if decide (currentTeacherId s = Some tid) then None
                  else currentTeacherId s)
                 (isStudent s) (rooms s ∖ {[room_of tid]})]> (sockets st)))
    as Hout.
  { intros [s' [Hs' Hin]]%elem_of_room_members.
    rewrite lookup_insert_eq in Hs'. simplify_eq/=. set_solver. }
  split_and!; try done.
  - apply set_eq. intros t. rewrite !elem_of_dom, lookup_alter.
    destruct (decide (tid = t)) as [->|]; [by rewrite fmap_is_Some|done].
  - intros t Hne. by rewrite lookup_alter_ne.
  - intros S HS. by rewrite lookup_alter_eq, HS.
  - intros c' Hne. by rewrite lookup_insert_ne.
  - intros c' data Hd e. unfold step.
    destruct (decide (c' ∈ _)); [|by intros ?%elem_of_nil].
    simpl. unfold on_whiteboardUpdate, broadcast_to. simpl.
    intros ->%list_elem_of_singleton. simpl. rewrite Hd. set_solver.
Qed.

Lemma X10_witness :
  let st := exec [Connection; Connection;
                  Message 0 (StartLive "t1"); Message 1 (JoinTeacherRoom "t1")] in
  let c := 1 in
  let tid := "t1" in
  ∃ st',
    step st (Message c (LeaveTeacherRoom tid)) = (st', []) ∧
    currentLiveTeacher st' = currentLiveTeacher st ∧
    dom (liveTeachers st') = dom (liveTeachers st) ∧
    (∀ t, t ≠ tid → liveTeachers st' !! t = liveTeachers st !! t) ∧
    (∀ students, liveTeachers st !! tid = Some students →
                 liveTeachers st' !! tid = Some (students ∖ {[c]})) ∧
    (∀ c', c' ≠ c → sockets st' !! c' = sockets st !! c') ∧
    (c ∉ room_members (room_of tid) (sockets st')) ∧
    (∀ c' data, teacherId data = tid →
       ∀ e, e ∈ (step st' (Message c' (WhiteboardUpdateIn data))).2 → c ∉ e.1).
Proof.
  apply (X10_leave_frame
           (exec [Connection; Connection;
                  Message 0 (StartLive "t1"); Message 1 (JoinTeacherRoom "t1")])
           1 (mkSocket (Some "t1") true {[room_of "t1"]}) "t1").
  vm_compute. reflexivity.
Defined.

(** * Sessions and the current teacher *)

(** X11.  In every reachable state [currentLiveTeacher] names a teacher
    that has a session, a session under a non-empty identifier belongs to
    the current teacher, and so at most one non-empty identifier has a
    session. *)
Theorem X11_reachable_sessions st :
  reachable st →
  (∀ tid, currentLiveTeacher st = Some tid → is_Some (liveTeachers st !! tid)) ∧
  (∀ tid, tid ≠ "" → is_Some (liveTeachers st !! tid) →
          currentLiveTeacher st = Some tid) ∧
  (∀ tid1 tid2, tid1 ≠ "" → tid2 ≠ "" →
     is_Some (liveTeachers st !! tid1) → is_Some (liveTeachers st !! tid2) →
     tid1 = tid2).
Proof.
  intros Hinv%reachable_inv. split_and!.
  - apply (inv_current_live _ Hinv).
  - apply (inv_live_current _ Hinv).
  - intros t1 t2 H1 H2 Hl1 Hl2.
    pose proof (inv_live_current _ Hinv _ H1 Hl1).
    pose proof (inv_live_current _ Hinv _ H2 Hl2). congruence.
Qed.

Lemma X11_witness :
  let st := exec [Connection; Message 0 (StartLive "t1")] in
  (∀ tid, currentLiveTeacher st = Some tid → is_Some (liveTeachers st !! tid)) ∧
  (∀ tid, tid ≠ "" → is_Some (liveTeachers st !! tid) →
          currentLiveTeacher st = Some tid) ∧
  (∀ tid1 tid2, tid1 ≠ "" → tid2 ≠ "" →
     is_Some (liveTeachers st !! tid1) → is_Some (liveTeachers st !! tid2) →
     tid1 = tid2).
Proof.
  apply (X11_reachable_sessions (exec [Connection; Message 0 (StartLive "t1")])).
  apply reachable_exec.
Defined.

(** * More on conforming runs *)

Lemma room_inv_room_empty st tid :
  room_inv st → liveTeachers st !! tid = None →
  room_members (room_of tid) (sockets st) = ∅.
Proof.
  intros Hinv Hl. apply set_eq. intros r. split; [|set_solver].
  intros [s [Hs Hin]]%elem_of_room_members.
  destruct (rinv_room_live _ Hinv tid r) as [? Hl']; [by exists s|].
  congruence.
Qed.

Lemma room_inv_sessions st tid :
  room_inv st →
  is_Some (liveTeachers st !! tid) → currentLiveTeacher st = Some tid.
Proof.
  intros Hinv Hl. apply (inv_live_current _ (rinv_base _ Hinv)); [|done].
  intros ->. rewrite (rinv_no_empty _ Hinv) in Hl. by destruct Hl.
Qed.

Lemma room_inv_host_live st tid c :
  room_inv st → host tid st c →
  tid ≠ "" ∧ currentLiveTeacher st = Some tid ∧
  ∃ students, liveTeachers st !! tid = Some students.
Proof.
  intros Hinv Hh.
  destruct (rinv_room_live _ Hinv tid c (rinv_host _ Hinv _ _ Hh)) as [S HS].
  assert (tid ≠ "") as Hne.
  { intros ->. rewrite (rinv_no_empty _ Hinv) in HS. done. }
  split_and!; [done| |by exists S].
  apply (inv_live_current _ (rinv_base _ Hinv)); eauto.
Qed.

Lemma conforming_example :
  conforming (exec [Connection; Connection;
                    Message 0 (StartLive "t1"); Message 1 (JoinTeacherRoom "t1")]).
Proof. apply conforming_run; [constructor|]. simpl. split_and!; done. Qed.

(** X12.  On conforming runs the two global variables agree: a teacher
    has a session exactly when [currentLiveTeacher] names that teacher. *)
Theorem X12_conforming_lifecycle st tid :
  conforming st →
  (is_Some (liveTeachers st !! tid) ↔ currentLiveTeacher st = Some tid).
Proof.
  intros Hinv%conforming_room_inv. split.
  - by apply room_inv_sessions.
  - apply (inv_current_live _ (rinv_base _ Hinv)).
Qed.

Lemma X12_witness :
  let st := exec [Connection; Connection;
                  Message 0 (StartLive "t1"); Message 1 (JoinTeacherRoom "t1")] in
  is_Some (liveTeachers st !! "t1") ↔ currentLiveTeacher st = Some "t1".
Proof.
  apply (X12_conforming_lifecycle
           (exec [Connection; Connection;
                  Message 0 (StartLive "t1"); Message 1 (JoinTeacherRoom "t1")])
           "t1").
  apply conforming_example.
Defined.

(** X13.  On conforming runs a subscriber set lists no socket that has
    gone: every subscriber is an open socket in the teacher's room. *)
Theorem X13_conforming_subscribers_open st tid students :
  conforming st → liveTeachers st !! tid = Some students →
  students ⊆ room_members (room_of tid) (sockets st).
Proof.
  intros Hconf Hl c Hc.
  pose proof (conforming_room_inv _ Hconf) as Hinv.
  destruct (rinv_subscriber _ Hinv _ _ _ Hl Hc) as (s & Hs & _).
  apply (subscriber_in_room _ _ students); try done.
  - by apply conforming_reachable.
  - apply elem_of_dom. eauto.
Qed.

Lemma X13_witness :
  let st := exec [Connection; Connection;
                  Message 0 (StartLive "t1"); Message 1 (JoinTeacherRoom "t1")] in
  ({[1]} : gset nat) ⊆ room_members (room_of "t1") (sockets st).
Proof.
  apply (X13_conforming_subscribers_open
           (exec [Connection; Connection;
                  Message 0 (StartLive "t1"); Message 1 (JoinTeacherRoom "t1")])
           "t1" {[1]}).
  - apply conforming_example.
  - vm_compute. reflexivity.
Defined.

(** X14.  On conforming runs the room of a teacher who is not live is
    empty, so a [whiteboardUpdate] that names such a teacher is delivered to
    nobody. *)
Theorem X14_conforming_update_not_live st tid c data :
  conforming st → liveTeachers st !! tid = None →
  c ∈ dom (sockets st) → teacherId data = tid →
  room_members (room_of tid) (sockets st) = ∅ ∧
  step st (Message c (WhiteboardUpdateIn data))
  = (st, [(∅, WhiteboardUpdateOut data)]).
Proof.
  intros Hinv%conforming_room_inv Hl Hc Hd.
  pose proof (room_inv_room_empty _ _ Hinv Hl) as Hroom.
  split; [done|].
  rewrite step_message by done. simpl.
  unfold on_whiteboardUpdate, broadcast_to. rewrite Hd, Hroom.
  do 3 f_equal. set_solver.
Qed.

Lemma X14_witness :
  let st := exec [Connection; Connection;
                  Message 0 (StartLive "t1"); Message 1 (JoinTeacherRoom "t1")] in
  let data := mkWhiteboardUpdate "t2" "[]" in
  room_members (room_of "t2") (sockets st) = ∅ ∧
  step st (Message 1 (WhiteboardUpdateIn data))
  = (st, [(∅, WhiteboardUpdateOut data)]).
Proof.
  apply (X14_conforming_update_not_live
           (exec [Connection; Connection;
                  Message 0 (StartLive "t1"); Message 1 (JoinTeacherRoom "t1")])
           "t2" 1 (mkWhiteboardUpdate "t2" "[]")).
  - apply conforming_example.
  - vm_compute. reflexivity.
  - vm_compute. reflexivity.
  - reflexivity.
Defined.

(** X15.  When, on a conforming run, the teacher-of-record stops the
    session or disconnects, every socket that remains is told
    [teacherOffline] and the relay is idle again: no session, no current
    teacher and nobody in any teacher room. *)
Theorem X15_host_leaves_relay_idle st tid c ev :
  conforming st → host tid st c →
  ev = Message c (StopLive tid) ∨ ev = Disconnect c →
  (step st ev).2 = [(dom (sockets (step st ev).1), TeacherOffline tid)] ∧
  liveTeachers (step st ev).1 = ∅ ∧
  currentLiveTeacher (step st ev).1 = None ∧
  (∀ t, room_members (room_of t) (sockets (step st ev).1) = ∅).
Proof.
  intros Hconf Hhost Hev.
  pose proof (conforming_room_inv _ Hconf) as Hinv.
  destruct (room_inv_host_live _ _ _ Hinv Hhost) as (Hne & Hcur & S & HS).
  assert (conforms st ev) as Hok.
  { destruct Hev as [->| ->]; simpl; [|done]. right.
    destruct Hhost as (s & Hs & Hc & Hst).
    unfold currentTeacherId_of, isStudent_of. by rewrite Hs. }
  pose proof (conforming_room_inv _ (conforming_step _ _ Hconf Hok)) as Hinv'.
  assert (c ∈ dom (sockets st)) as Hopen.
  { destruct Hhost as (s & Hs & _). apply elem_of_dom. eauto. }
  assert ((step st ev).2 = [(dom (sockets (step st ev).1), TeacherOffline tid)]
          ∧ currentLiveTeacher (step st ev).1 = None) as [Hout Hcur'].
  { destruct Hev as [->| ->].
    - rewrite step_message by done. simpl.
      rewrite (on_stopLive_live _ _ _ _ HS). simpl.
      split; [|by destruct (decide (currentLiveTeacher st = Some tid))].
      destruct (decide (currentTeacherId_of c st = Some tid));
        by rewrite ?dom_alter_L, dom_evict.
    - destruct Hhost as (s & Hs & Hc & Hst).
      rewrite (disconnect_teacher_is_stopLive _ _ s tid) by done.
      rewrite step_message by done. simpl.
      rewrite (on_stopLive_live _ _ _ _ HS). unfold close. simpl.
      split; [|by destruct (decide (currentLiveTeacher st = Some tid))].
      rewrite dom_delete_L.
      destruct (decide (currentTeacherId_of c st = Some tid));
        by rewrite ?dom_alter_L, dom_evict. }
  assert (liveTeachers (step st ev).1 = ∅) as Hlt.
  { apply map_eq. intros t. rewrite lookup_empty.
    destruct (liveTeachers (step st ev).1 !! t) eqn:Hl; [|done].
    assert (currentLiveTeacher (step st ev).1 = Some t) as Habs
      by (apply room_inv_sessions; eauto).
    congruence. }
  split_and!; try done.
  intros t. apply room_inv_room_empty; [done|]. by rewrite Hlt.
Qed.

Lemma X15_witness :
  let st := exec [Connection; Connection;
                  Message 0 (StartLive "t1"); Message 1 (JoinTeacherRoom "t1")] in
  let ev := Disconnect 0 in
  (step st ev).2 = [(dom (sockets (step st ev).1), TeacherOffline "t1")] ∧
  liveTeachers (step st ev).1 = ∅ ∧
  currentLiveTeacher (step st ev).1 = None ∧
  (∀ t, room_members (room_of t) (sockets (step st ev).1) = ∅).
Proof.
  apply (X15_host_leaves_relay_idle
           (exec [Connection; Connection;
                  Message 0 (StartLive "t1"); Message 1 (JoinTeacherRoom "t1")])
           "t1" 0 (Disconnect 0)).
  - apply conforming_example.
  - exists (mkSocket (Some "t1") false {[room_of "t1"]}).
    vm_compute. split_and!; reflexivity.
  - right. reflexivity.
Defined.

(** * The clients against the relay *)

Lemma exchange_join_loop n c tid st :
  c ∈ dom (sockets st) → is_Some (liveTeachers st !! tid) →
  let r := StudentWhiteboard.exchange n c [JoinTeacherRoom tid] st in
  r.2 = [JoinTeacherRoom tid] ∧
  is_Some (liveTeachers r.1 !! tid) ∧
  currentLiveTeacher r.1 = currentLiveTeacher st.
Proof.
  revert st. induction n as [|n IH]; intros st Hc [S HS]; simpl; [eauto|].
  unfold StudentWhiteboard.turn.
  rewrite step_message by done. simpl.
  apply elem_of_dom in Hc as [s Hs].
  rewrite (on_joinTeacherRoom_eq _ _ s _ S) by done. simpl.
  rewrite decide_True by set_solver. simpl.
  match goal with |- context [StudentWhiteboard.exchange n c _ ?st'] =>
    destruct (IH st') as (H1 & H2 & H3); simpl
  end.
  - rewrite dom_insert_L. set_solver.
  - rewrite lookup_insert_eq. eauto.
  - done.
Qed.

(** X16.  While a teacher with a non-empty identifier is live, the
    exchange between the relay and the listeners of a StudentWhiteboard
    never comes to rest: the [checkTeacherStatus] of the mount is answered
    with [teacherOnline], [handleTeacherOnline] answers every
    [teacherOnline] with [joinTeacherRoom], and the relay answers every such
    join with [teacherOnline] again.  After any number of turns a
    [joinTeacherRoom] is in flight and the teacher is still live. *)
Theorem X16_student_join_loop st c tid n :
  reachable st → c ∈ dom (sockets st) →
  currentLiveTeacher st = Some tid → tid ≠ "" →
  let r := StudentWhiteboard.exchange (S n) c StudentWhiteboard.on_mount st in
  JoinTeacherRoom tid ∈ r.2 ∧
  is_Some (liveTeachers r.1 !! tid) ∧
  currentLiveTeacher r.1 = Some tid.
Proof.
  intros Hst Hc Hcur Hne.
  pose proof (inv_current_live _ (reachable_inv _ Hst) _ Hcur) as Hl.
  unfold StudentWhiteboard.on_mount.
  cbn [StudentWhiteboard.exchange]. unfold StudentWhiteboard.turn.
  rewrite step_message by done. simpl.
  unfold on_checkTeacherStatus. rewrite Hcur.
  rewrite (proj2 (truthy_Some tid) Hne). simpl.
  rewrite decide_True by set_solver. simpl.
  destruct (exchange_join_loop n c tid st Hc Hl) as (Hq & Hlive & Hcur').
  rewrite Hq, Hcur', Hcur. split_and!; [apply list_elem_of_here|done..].
Qed.

Lemma X16_witness :
  let st := exec [Connection; Connection; Message 0 (StartLive "t1")] in
  let r := StudentWhiteboard.exchange 8 1 StudentWhiteboard.on_mount st in
  JoinTeacherRoom "t1" ∈ r.2 ∧
  is_Some (liveTeachers r.1 !! "t1") ∧
  currentLiveTeacher r.1 = Some "t1".
Proof.
  apply (X16_student_join_loop
           (exec [Connection; Connection; Message 0 (StartLive "t1")])
           1 "t1" 7).
  - apply reachable_exec.
  - vm_compute. reflexivity.
  - vm_compute. reflexivity.
  - discriminate.
Defined.

Lemma students_answer_cons tid r cs :
  students_answer tid (r :: cs)
  = Message r (JoinTeacherRoom tid) :: students_answer tid cs.
Proof. done. Qed.

Lemma students_answer_conforms tid cs st :
  run_conforms (students_answer tid cs) st.
Proof.
  revert st. induction cs as [|r cs IH]; intros st; [done|].
  rewrite students_answer_cons. split; [done|apply IH].
Qed.

Lemma students_answer_run tid cs st students :
  liveTeachers st !! tid = Some students →
  Forall (λ r, r ∈ dom (sockets st)) cs →
  liveTeachers (run (students_answer tid cs) st).1
  = <[tid := students ∪ list_to_set cs]> (liveTeachers st) ∧
  dom (sockets (run (students_answer tid cs) st).1) = dom (sockets st) ∧
  (∀ c, c ∉ cs →
     sockets (run (students_answer tid cs) st).1 !! c = sockets st !! c).
Proof.
  revert st students. induction cs as [|r cs IH]; intros st S HS Hcs.
  - simpl. split_and!; try done.
    rewrite insert_id; [done|]. rewrite HS. f_equal. set_solver.
  - apply Forall_cons in Hcs as [Hr Hcs].
    rewrite students_answer_cons, run_cons_state.
    rewrite step_message by done. cbn [on_message].
    apply elem_of_dom in Hr as Hr'. destruct Hr' as [s Hs].
    rewrite (on_joinTeacherRoom_eq _ _ s _ S) by done. cbn [fst].
    match goal with |- context [run _ ?st1] =>
      destruct (IH st1 (S ∪ {[r]})) as (H1 & H2 & H3)
    end.
    + simpl. apply lookup_insert_eq.
    + simpl. rewrite dom_insert_L.
      eapply Forall_impl; [exact Hcs|]. simpl. intros x Hx. set_solver.
    + simpl in *. split_and!.
      * rewrite H1, insert_insert_eq. f_equal. set_solver.
      * rewrite H2, dom_insert_L. set_solver.
      * intros c Hc. rewrite H3 by set_solver.
        rewrite lookup_insert_ne; [done|]. set_solver.
Qed.

(** X17.  A teacher goes live on an idle relay of a conforming run.  The
    two messages of [confirmStartLive], handled back to back, announce the
    teacher to every open socket and deliver the initial canvas to nobody,
    the room being empty still.  Once the students [cs] have answered the
    announcement as [handleTeacherOnline] does, the subscriber set is [cs]
    and every update the teacher sends is delivered to exactly [cs]. *)
Theorem X17_go_live_then_students_join st c uid paths cs :
  conforming st → currentLiveTeacher st = None →
  c ∈ dom (sockets st) → isStudent_of c st = false → uid ≠ "" →
  Forall (λ r, r ∈ dom (sockets st)) cs → c ∉ cs →
  let start :=
    Message c <$> (TeacherWhiteboard.confirmStartLive (Some uid) (Some paths)
                    false).2 in
  let st' := (run (start ++ students_answer uid cs) st).1 in
  (run start st).2
  = [(dom (sockets st), TeacherOnline uid);
     (∅, WhiteboardUpdateOut (mkWhiteboardUpdate uid paths))] ∧
  liveTeachers st' = {[ uid := list_to_set cs ]} ∧
  ∀ data, teacherId data = uid →
    step st' (Message c (WhiteboardUpdateIn data))
    = (st', [(list_to_set cs, WhiteboardUpdateOut data)]).
Proof.
  intros Hconf Hcur Hc Hstud Hne Hcs Hccs start st'.
  pose proof (conforming_room_inv _ Hconf) as Hinv.
  assert (liveTeachers st = ∅) as Hidle.
  { apply map_eq. intros t. rewrite lookup_empty.
    apply (room_inv_idle _ Hinv). by rewrite Hcur. }
  assert (start = [Message c (StartLive uid);
                   Message c (WhiteboardUpdateIn (mkWhiteboardUpdate uid paths))])
    as Hstart.
  { subst start. unfold TeacherWhiteboard.confirmStartLive.
    by rewrite (proj2 (truthy_Some uid) Hne). }
  apply elem_of_dom in Hc as Hc'. destruct Hc' as [s Hs].
  assert (isStudent s = false) as Hs_stud.
  { unfold isStudent_of in Hstud. by rewrite Hs in Hstud. }
  set (st1 := mkRelay (<[uid := ∅]> (liveTeachers st)) (Some uid)
                (<[c := mkSocket (Some uid) (isStudent s)
                          ({[room_of uid]} ∪ rooms s)]> (sockets st))
                (nextSocket st)).
  assert (step st (Message c (StartLive uid))
          = (st1, [(dom (sockets st), TeacherOnline uid)])) as Hstep1.
  { rewrite step_message by done. simpl. unfold on_startLive.
    rewrite Hcur. simpl. unfold io_emit. simpl.
    rewrite (alter_alter_insert _ _ _ _ s) by done. simpl.
    subst st1. do 3 f_equal. rewrite dom_insert_L.
    apply elem_of_dom_2 in Hs. clear -Hs. set_solver. }
  assert (conforming st1) as Hconf1.
  { pose proof (conforming_step st (Message c (StartLive uid)) Hconf Hne) as H.
    by rewrite Hstep1 in H. }
  assert (c ∈ dom (sockets st1)) as Hc1.
  { subst st1. simpl. rewrite dom_insert_L. set_solver. }
  assert (currentTeacherId_of c st1 = Some uid ∧ isStudent_of c st1 = false)
    as [Hcur1 Hstud1].
  { unfold currentTeacherId_of, isStudent_of. subst st1. simpl.
    by rewrite lookup_insert_eq. }
  assert (liveTeachers st1 !! uid = Some ∅) as Hl1.
  { subst st1. simpl. apply lookup_insert_eq. }
  assert (step st1 (Message c (WhiteboardUpdateIn (mkWhiteboardUpdate uid paths)))
          = (st1, [(∅, WhiteboardUpdateOut (mkWhiteboardUpdate uid paths))]))
    as Hstep2.
  { rewrite step_message by done. cbn [on_message].
    unfold on_whiteboardUpdate, broadcast_to. cbn [teacherId].
    by rewrite (whiteboardUpdate_exact st1 c uid ∅). }
  assert (Forall (λ r, r ∈ dom (sockets st1)) cs) as Hcs1.
  { eapply Forall_impl; [exact Hcs|]. subst st1. simpl. intros x Hx.
    rewrite dom_insert_L. set_solver. }
  destruct (students_answer_run uid cs st1 ∅ Hl1 Hcs1) as (Hlt & Hdom & Hsock).
  assert (st' = (run (students_answer uid cs) st1).1) as Hst'.
  { subst st'. rewrite run_app_state, Hstart.
    rewrite run_cons_state, Hstep1. cbn [fst].
    rewrite run_cons_state, Hstep2. done. }
  assert (conforming st') as Hconf'.
  { rewrite Hst'. apply conforming_run; [done|apply students_answer_conforms]. }
  assert (liveTeachers st' = {[ uid := list_to_set cs ]}) as Hlt'.
  { rewrite Hst', Hlt. subst st1. simpl. rewrite Hidle, insert_insert_eq.
    rewrite insert_empty. f_equal. set_solver. }
  split_and!.
  - rewrite Hstart. cbn [run]. rewrite Hstep1. cbv beta iota zeta.
    rewrite Hstep2. done.
  - done.
  - intros data Hd.
    assert (c ∈ dom (sockets st')) as Hc' by (by rewrite Hst', Hdom).
    rewrite step_message by done. cbn [on_message].
    unfold on_whiteboardUpdate, broadcast_to. rewrite Hd.
    rewrite (whiteboardUpdate_exact st' c uid (list_to_set cs)); try done.
    + rewrite Hlt'. apply lookup_singleton_eq.
    + unfold currentTeacherId_of. rewrite Hst', (Hsock c Hccs).
      exact Hcur1.
    + unfold isStudent_of. rewrite Hst', (Hsock c Hccs). exact Hstud1.
Qed.

Lemma X17_witness :
  let st := exec [Connection; Connection; Connection] in
  let start :=
    Message 0 <$> (TeacherWhiteboard.confirmStartLive (Some "t1") (Some "[]")
                    false).2 in
  let st' := (run (start ++ students_answer "t1" [1; 2]) st).1 in
  (run start st).2
  = [(dom (sockets st), TeacherOnline "t1");
     (∅, WhiteboardUpdateOut (mkWhiteboardUpdate "t1" "[]"))] ∧
  liveTeachers st' = {[ "t1" := list_to_set [1; 2] ]} ∧
  ∀ data, teacherId data = "t1" →
    step st' (Message 0 (WhiteboardUpdateIn data))
    = (st', [(list_to_set [1; 2], WhiteboardUpdateOut data)]).
Proof.
  apply (X17_go_live_then_students_join
           (exec [Connection; Connection; Connection]) 0 "t1" "[]" [1; 2]).
  - apply conforming_run; [constructor|]. simpl. split_and!; done.
  - reflexivity.
  - vm_compute. reflexivity.
  - reflexivity.
  - discriminate.
  - repeat constructor; vm_compute; reflexivity.
  - intros H. repeat (apply elem_of_cons in H as [H|H]; [discriminate H|]).
    by apply elem_of_nil in H.
Defined.

(** * What the events of one socket do to another *)

(** X18.  The closure variables of a socket belong to it: in a reachable
    state an event of another socket, or a new connection, leaves the socket
    open with its [currentTeacherId] and [isStudent] as they were.  All it
    can do to the socket is take it out of rooms. *)
Theorem X18_other_sockets_events st ev c s :
  reachable st → sockets st !! c = Some s →
  ev ≠ Disconnect c → (∀ m, ev ≠ Message c m) →
  ∃ s', sockets (step st ev).1 !! c = Some s' ∧
        currentTeacherId s' = currentTeacherId s ∧
        isStudent s' = isStudent s ∧
        rooms s' ⊆ rooms s.
Proof.
  intros Hinv%reachable_inv Hs Hd Hm.
  assert (c < nextSocket st) as Hfresh.
  { apply (inv_open_fresh _ Hinv). apply elem_of_dom. eauto. }
  handler_cases st ev; try (by exists s); cbn [sockets];
    try (assert (c0 ≠ c) as Hne by (intros ->; first [by destruct Hd|by eapply Hm])).
  - exists s. rewrite lookup_insert_ne by lia. done.
  - exists s. by rewrite !lookup_alter_ne.
  - destruct (decide (currentTeacherId_of c0 st = Some t));
      rewrite ?lookup_alter_ne by done; rewrite evict_lookup, Hs; simpl;
      (destruct (decide (c ∈ X)); eexists; (split; [done|]); simpl;
       split_and!; try done; set_solver).
  - exists s. simpl. by rewrite !lookup_alter_ne.
  - exists s. by rewrite !lookup_alter_ne.
  - exists s.
    destruct (decide (currentTeacherId_of c0 st = Some t));
      by rewrite !lookup_alter_ne.
  - exists s. simpl. by rewrite lookup_delete_ne.
  - simpl. rewrite evict_lookup, lookup_delete_ne, Hs by done. simpl.
    destruct (decide (c ∈ X)); eexists; (split; [done|]); simpl;
      split_and!; try done; set_solver.
  - exists s. simpl. by rewrite lookup_delete_ne.
  - exists s. simpl. by rewrite lookup_delete_ne.
  - exists s. simpl. by rewrite lookup_delete_ne.
Qed.

Lemma X18_witness :
  let st := exec [Connection; Connection;
                  Message 0 (StartLive "t1"); Message 1 (JoinTeacherRoom "t1")] in
  let s := mkSocket (Some "t1") true {[room_of "t1"]} in
  ∃ s', sockets (step st (Message 0 (StopLive "t1"))).1 !! 1 = Some s' ∧
        currentTeacherId s' = currentTeacherId s ∧
        isStudent s' = isStudent s ∧
        rooms s' ⊆ rooms s.
Proof.
  apply (X18_other_sockets_events
           (exec [Connection; Connection;
                  Message 0 (StartLive "t1"); Message 1 (JoinTeacherRoom "t1")])
           (Message 0 (StopLive "t1")) 1
           (mkSocket (Some "t1") true {[room_of "t1"]})).
  - apply reachable_exec.
  - vm_compute. reflexivity.
  - discriminate.
  - discriminate.
Defined.

(** X19.  Nobody is subscribed or put in a room by somebody else: a
    socket that is in a teacher's subscriber set after a step was in it
    before or has just sent [joinTeacherRoom] for that teacher, and a socket
    that is in a teacher's room after a step was in it before or has just
    sent [joinTeacherRoom] or [startLive] for that teacher. *)
Theorem X19_membership_by_own_message st ev tid c :
  (∀ students', liveTeachers (step st ev).1 !! tid = Some students' →
     c ∈ students' →
     (∃ students, liveTeachers st !! tid = Some students ∧ c ∈ students)
     ∨ ev = Message c (JoinTeacherRoom tid)) ∧
  (in_room tid (step st ev).1 c →
     in_room tid st c
     ∨ ev = Message c (JoinTeacherRoom tid)
     ∨ ev = Message c (StartLive tid)).
Proof.
  unfold in_room.
  handler_cases st ev; try (split; [by eauto|by eauto]); cbn [liveTeachers sockets].
  - split; [by eauto|]. intros (s & Hs & Hin).
    rewrite lookup_insert in Hs.
    destruct (decide (nextSocket st = c)); simplify_eq/=; [set_solver|eauto].
  - split.
    + intros S'. rewrite lookup_insert.
      destruct (decide (t = tid)); intros; simplify_eq; [set_solver|eauto].
    + intros (s & Hs & Hin). rewrite !lookup_alter_fmap in Hs.
      destruct (sockets st !! c) as [s0|] eqn:Hs0; [|done].
      destruct (decide (c0 = c)) as [->|]; simplify_eq/=; [|eauto].
      apply elem_of_union in Hin as [Hin|Hin]; [|eauto].
      apply elem_of_singleton, room_of_inj in Hin as ->. eauto.
  - split.
    + intros S'. rewrite lookup_delete.
      destruct (decide (t = tid)); [done|eauto].
    + intros (s & Hs & Hin). left.
      destruct (decide (currentTeacherId_of c0 st = Some t));
        rewrite ?lookup_alter_fmap, evict_lookup in Hs;
        destruct (sockets st !! c) as [s0|] eqn:Hs0; try done;
        exists s0; (split; [done|]);
        repeat case_decide; simplify_eq/=; set_solver.
  - split; [by eauto|]. simpl. intros (s & Hs & Hin). left.
    rewrite !lookup_alter_fmap in Hs.
    destruct (sockets st !! c) as [s0|] eqn:Hs0; [|done].
    exists s0. split; [done|].
    repeat case_decide; simplify_eq/=; set_solver.
  - split.
    + intros S'. rewrite lookup_insert.
      destruct (decide (t = tid)) as [->|]; intros; simplify_eq; [|eauto].
      destruct (decide (c0 = c)) as [->|]; [by right|].
      left. exists X. split; [done|]. set_solver.
    + intros (s & Hs & Hin). rewrite !lookup_alter_fmap in Hs.
      destruct (sockets st !! c) as [s0|] eqn:Hs0; [|done].
      destruct (decide (c0 = c)) as [->|]; simplify_eq/=; [|eauto].
      apply elem_of_union in Hin as [Hin|Hin]; [|eauto].
      apply elem_of_singleton, room_of_inj in Hin as ->. eauto.
  - split.
    + intros S'. rewrite lookup_alter.
      destruct (decide (t = tid)) as [->|]; [|eauto].
      destruct (liveTeachers st !! tid) as [S0|] eqn:HS0; [|done].
      simpl. intros [= <-] Hin. left. exists S0. split; [done|]. set_solver.
    + intros (s & Hs & Hin). left.
      destruct (decide (currentTeacherId_of c0 st = Some t));
        rewrite !lookup_alter_fmap in Hs;
        destruct (sockets st !! c) as [s0|] eqn:Hs0; try done;
        exists s0; (split; [done|]);
        repeat case_decide; simplify_eq/=; set_solver.
  - split.
    + intros S'. simpl. rewrite lookup_alter.
      destruct (decide (t = tid)) as [->|]; [|eauto].
      destruct (liveTeachers st !! tid) as [S0|] eqn:HS0; [|done].
      simpl. intros [= <-] Hin. left. exists S0. split; [done|]. set_solver.
    + simpl. intros (s & Hs & Hin). left.
      rewrite lookup_delete in Hs. case_decide; [done|eauto].
  - split.
    + intros S'. simpl. rewrite lookup_delete.
      destruct (decide (t = tid)); [done|eauto].
    + simpl. intros (s & Hs & Hin). left.
      rewrite evict_lookup, lookup_delete in Hs.
      destruct (decide (c0 = c)); [done|].
      destruct (sockets st !! c) as [s0|] eqn:Hs0; [|done].
      exists s0. split; [done|].
      repeat case_decide; simplify_eq/=; set_solver.
  - split; [by eauto|]. simpl. intros (s & Hs & Hin). left.
    rewrite lookup_delete in Hs. case_decide; [done|eauto].
  - split; [by eauto|]. simpl. intros (s & Hs & Hin). left.
    rewrite lookup_delete in Hs. case_decide; [done|eauto].
  - split; [by eauto|]. simpl. intros (s & Hs & Hin). left.
    rewrite lookup_delete in Hs. case_decide; [done|eauto].
Qed.

(** X20.  A socket that sends [leaveTeacherRoom] for the teacher its
    [currentTeacherId] names is cut loose from that teacher: its disconnect
    then sends nothing and ends no session, also when the socket is the one
    that went live.  Together the two events only close the socket and take
    it out of the teacher's subscriber set. *)
Theorem X20_leave_then_disconnect st c s tid :
  sockets st !! c = Some s → currentTeacherId s = Some tid →
  run [Message c (LeaveTeacherRoom tid); Disconnect c] st
  = (mkRelay (alter (λ students, students ∖ {[c]}) tid (liveTeachers st))
       (currentLiveTeacher st) (delete c (sockets st)) (nextSocket st), []).
Proof.
  intros Hs Hcur.
  assert (c ∈ dom (sockets st)) as Hc by (apply elem_of_dom; eauto).
  cbn [run]. rewrite step_message by done. cbn [on_message].
  rewrite (on_leaveTeacherRoom_eq _ _ s) by done. cbv beta iota zeta.
  rewrite decide_True by done.
  rewrite step_disconnect by (simpl; rewrite dom_insert_L; set_solver).
  unfold on_disconnect, currentTeacherId_of. simpl.
  rewrite lookup_insert_eq. simpl. unfold with_sockets. simpl.
  by rewrite delete_insert_eq.
Qed.

Lemma X20_witness :
  let st := exec [Connection; Connection;
                  Message 0 (StartLive "t1"); Message 1 (JoinTeacherRoom "t1")] in
  run [Message 0 (LeaveTeacherRoom "t1"); Disconnect 0] st
  = (mkRelay (alter (λ students, students ∖ {[0]}) "t1" (liveTeachers st))
       (currentLiveTeacher st) (delete 0 (sockets st)) (nextSocket st), []).
Proof.
  apply (X20_leave_then_disconnect
           (exec [Connection; Connection;
                  Message 0 (StartLive "t1"); Message 1 (JoinTeacherRoom "t1")])
           0 (mkSocket (Some "t1") false {[room_of "t1"]}) "t1").
  - vm_compute. reflexivity.
  - reflexivity.
Defined.

(** * One teacher at a time *)

Lemma ends_no_session_truthy st ev :
  ends_no_session ev = true →
  truthy (currentLiveTeacher st) = true →
  truthy (currentLiveTeacher (step st ev).1) = true ∧ goes_live st ev = false.
Proof.
  intros Hev Htr. unfold goes_live.
  handler_cases st ev; try done. by rewrite Hcur.
Qed.

Lemma goes_live_truthy st ev :
  ends_no_session ev = true → goes_live st ev = true →
  truthy (currentLiveTeacher (step st ev).1) = true.
Proof.
  unfold goes_live.
  handler_cases st ev; try done. simpl. intros Hne _.
  apply truthy_Some. intros ->. done.
Qed.

(** X21.  While no session is ended, at most one [startLive] is accepted:
    in a run from any state that holds no [stopLive] and no disconnect, and
    whose [startLive] calls carry non-empty identifiers, whatever else the
    sockets send, the relay accepts at most one of the calls, and none if
    [currentLiveTeacher] is truthy at the start. *)
Theorem X21_one_startLive_accepted evs st :
  forallb ends_no_session evs = true →
  accepted_startLives evs st ≤ 1 ∧
  (truthy (currentLiveTeacher st) = true → accepted_startLives evs st = 0).
Proof.
  revert st. induction evs as [|ev evs IH]; intros st Hevs; simpl; [split; [lia|done]|].
  simpl in Hevs. apply andb_true_iff in Hevs as [Hev Hevs].
  destruct (IH (step st ev).1 Hevs) as [IH1 IH0]. split.
  - destruct (goes_live st ev) eqn:Hg; [|lia].
    rewrite IH0; [lia|]. by apply goes_live_truthy.
  - intros Hcur.
    destruct (ends_no_session_truthy st ev Hev Hcur) as [Hcur' ->].
    by rewrite IH0.
Qed.

Lemma X21_witness :
  let evs := [Message 0 (StartLive "t1"); Message 1 (JoinTeacherRoom "t1");
              Message 1 (StartLive "t2"); Message 0 (StartLive "t1")] in
  let st := exec [Connection; Connection] in
  accepted_startLives evs st ≤ 1 ∧
  (truthy (currentLiveTeacher st) = true → accepted_startLives evs st = 0).
Proof.
  apply (X21_one_startLive_accepted
           [Message 0 (StartLive "t1"); Message 1 (JoinTeacherRoom "t1");
            Message 1 (StartLive "t2"); Message 0 (StartLive "t1")]
           (exec [Connection; Connection])).
  reflexivity.
Defined.

(** * The teacher's disconnect *)

(** X22.  In every state, reachable or not, the disconnect of a socket
    whose [isStudent] is false and whose [currentTeacherId] is a non-empty
    [tid] does what [stopLive] for [tid] on that socket does, the socket
    being closed afterwards and told nothing.  If [tid] has a session it is
    deleted, [currentLiveTeacher] is cleared if it is [tid], the subscribers
    are put out of the room and [teacherOffline] goes to the sockets that
    remain; if not, the socket is closed and that is all. *)
Theorem X22_teacher_disconnect_is_stopLive st c s tid :
  sockets st !! c = Some s →
  currentTeacherId s = Some tid → isStudent s = false → tid ≠ "" →
  step st (Disconnect c) = close c (step st (Message c (StopLive tid))) ∧
  step st (Disconnect c)
  = match liveTeachers st !! tid with
    | Some students =>
        (mkRelay (delete tid (liveTeachers st))
           (if decide (currentLiveTeacher st = Some tid) then None
            else currentLiveTeacher st)
           (evict students (room_of tid) (delete c (sockets st)))
           (nextSocket st),
         [(dom (sockets st) ∖ {[c]}, TeacherOffline tid)])
    | None => (with_sockets st (delete c (sockets st)), [])
    end.
Proof.
  intros Hs Hcur Hstud Hne.
  split; [by apply (disconnect_teacher_is_stopLive _ _ s)|].
  assert (c ∈ dom (sockets st)) as Hc by (apply elem_of_dom; eauto).
  rewrite step_disconnect by done.
  unfold on_disconnect, currentTeacherId_of, isStudent_of.
  rewrite Hs. simpl. rewrite Hcur, Hstud.
  rewrite (proj2 (truthy_Some tid) Hne).
  destruct (liveTeachers st !! tid) as [students|]; [|done].
  unfold tear_down, io_emit. simpl.
  by rewrite dom_evict, dom_delete_L.
Qed.

Lemma X22_witness :
  let st := exec [Connection; Connection;
                  Message 0 (StartLive "t1"); Message 1 (JoinTeacherRoom "t1")] in
  step st (Disconnect 0) = close 0 (step st (Message 0 (StopLive "t1"))) ∧
  step st (Disconnect 0)
  = match liveTeachers st !! "t1" with
    | Some students =>
        (mkRelay (delete "t1" (liveTeachers st))
           (if decide (currentLiveTeacher st = Some "t1") then None
            else currentLiveTeacher st)
           (evict students (room_of "t1") (delete 0 (sockets st)))
           (nextSocket st),
         [(dom (sockets st) ∖ {[0]}, TeacherOffline "t1")])
    | None => (with_sockets st (delete 0 (sockets st)), [])
    end.
Proof.
  apply (X22_teacher_disconnect_is_stopLive
           (exec [Connection; Connection;
                  Message 0 (StartLive "t1"); Message 1 (JoinTeacherRoom "t1")])
           0 (mkSocket (Some "t1") false {[room_of "t1"]}) "t1").
  - vm_compute. reflexivity.
  - reflexivity.
  - reflexivity.
  - discriminate.
Defined.

(** * A second teacher presses Start while a session is live *)

(** What a TeacherWhiteboard with [userId = uid] and a mounted canvas sends
    when the teacher confirms the start and the relay refuses: the two
    messages of [confirmStartLive], then what [handleLiveError] causes. *)
Lemma refused_start_messages uid paths :
  uid ≠ "" →
  let tab := TeacherWhiteboard.confirmStartLive (Some uid) (Some paths) false in
  tab.2 ++ (TeacherWhiteboard.handleLiveError (Some uid) tab.1).2
  = [StartLive uid; WhiteboardUpdateIn (mkWhiteboardUpdate uid paths);
     StopLive uid].
Proof.
  intros Hne. unfold TeacherWhiteboard.confirmStartLive,
    TeacherWhiteboard.handleLiveError, TeacherWhiteboard.cleanup.
  by rewrite (proj2 (truthy_Some uid) Hne).
Qed.

(** X23.  A teacher whose identifier is not the live one confirms the
    start on a conforming run: the relay answers [liveError], the initial
    canvas is delivered to nobody, and the [stopLive] that the component
    sends when [handleLiveError] has reset [isLive] ends nothing.  The
    session that is live, its subscribers and every other socket are as
    before. *)
Theorem X23_other_teacher_refused st c uid paths tid :
  conforming st → currentLiveTeacher st = Some tid →
  c ∈ dom (sockets st) → uid ≠ "" → uid ≠ tid →
  let tab := TeacherWhiteboard.confirmStartLive (Some uid) (Some paths) false in
  let sent := tab.2 ++ (TeacherWhiteboard.handleLiveError (Some uid) tab.1).2 in
  ∃ st',
    run (Message c <$> sent) st
    = (st', [({[c]}, LiveError liveError_message);
             (∅, WhiteboardUpdateOut (mkWhiteboardUpdate uid paths))]) ∧
    liveTeachers st' = liveTeachers st ∧
    currentLiveTeacher st' = Some tid ∧
    ∀ c', c' ≠ c → sockets st' !! c' = sockets st !! c'.
Proof.
  intros Hconf Hcur Hc Hne Hdiff tab sent.
  subst sent tab. rewrite (refused_start_messages uid paths Hne).
  pose proof (conforming_room_inv _ Hconf) as Hinv.
  assert (tid ≠ "") as Htid.
  { intros ->.
    destruct (inv_current_live _ (rinv_base _ Hinv) _ Hcur) as [S HS].
    by rewrite (rinv_no_empty _ Hinv) in HS. }
  assert (liveTeachers st !! uid = None) as Hl.
  { destruct (liveTeachers st !! uid) eqn:Hl; [|done].
    assert (currentLiveTeacher st = Some uid) by (apply room_inv_sessions; eauto).
    congruence. }
  cbn [fmap list_fmap run].
  rewrite startLive_rejected; [|by rewrite Hcur; apply truthy_Some|done].
  cbv beta iota zeta.
  rewrite step_message by done. cbn [on_message].
  unfold on_whiteboardUpdate, broadcast_to. cbn [teacherId].
  rewrite (room_inv_room_empty _ _ Hinv Hl).
  replace (∅ ∖ {[c]} : gset nat) with (∅ : gset nat) by set_solver.
  cbv beta iota zeta.
  rewrite step_message by done. cbn [on_message].
  unfold on_stopLive. rewrite Hl.
  destruct (decide (currentTeacherId_of c st = Some uid)).
  - eexists. split; [reflexivity|]. simpl. split_and!; try done.
    intros c' Hc'. by rewrite !lookup_alter_ne.
  - eexists. split; [reflexivity|]. done.
Qed.

Lemma X23_witness :
  let st := exec [Connection; Connection; Connection;
                  Message 0 (StartLive "t1"); Message 1 (JoinTeacherRoom "t1")] in
  let tab := TeacherWhiteboard.confirmStartLive (Some "t2") (Some "[]") false in
  let sent := tab.2 ++ (TeacherWhiteboard.handleLiveError (Some "t2") tab.1).2 in
  ∃ st',
    run (Message 2 <$> sent) st
    = (st', [({[2]}, LiveError liveError_message);
             (∅, WhiteboardUpdateOut (mkWhiteboardUpdate "t2" "[]"))]) ∧
    liveTeachers st' = liveTeachers st ∧
    currentLiveTeacher st' = Some "t1" ∧
    ∀ c', c' ≠ 2 → sockets st' !! c' = sockets st !! c'.
Proof.
  apply (X23_other_teacher_refused
           (exec [Connection; Connection; Connection;
                  Message 0 (StartLive "t1"); Message 1 (JoinTeacherRoom "t1")])
           2 "t2" "[]" "t1").
  - apply conforming_run; [constructor|]. simpl. split_and!; done.
  - reflexivity.
  - vm_compute. reflexivity.
  - discriminate.
  - discriminate.
Defined.

(** X24.  The live teacher's own identifier from a second socket: another
    tab of the same account confirms the start while the session runs, on a
    conforming run.  The relay answers [liveError], but the initial canvas
    of the second tab is delivered to the session's subscribers and to the
    first tab, and the [stopLive] that the component sends when
    [handleLiveError] has reset [isLive] ends the session: [teacherOffline]
    goes to every open socket, no session and no current teacher are left.
    The first tab's socket keeps its [currentTeacherId] and stays in the
    room, from which the subscribers are gone. *)
Theorem X24_second_tab_ends_session st c1 c2 uid paths students :
  conforming st → host uid st c1 →
  liveTeachers st !! uid = Some students →
  c2 ∈ dom (sockets st) → c2 ≠ c1 →
  let tab := TeacherWhiteboard.confirmStartLive (Some uid) (Some paths) false in
  let sent := tab.2 ++ (TeacherWhiteboard.handleLiveError (Some uid) tab.1).2 in
  ∃ st',
    run (Message c2 <$> sent) st
    = (st', [({[c2]}, LiveError liveError_message);
             ((students ∪ {[c1]}) ∖ {[c2]},
              WhiteboardUpdateOut (mkWhiteboardUpdate uid paths));
             (dom (sockets st), TeacherOffline uid)]) ∧
    liveTeachers st' = ∅ ∧
    currentLiveTeacher st' = None ∧
    host uid st' c1 ∧
    room_members (room_of uid) (sockets st') ⊆ {[c1]}.
Proof.
  intros Hconf Hhost Hl Hc2 Hne tab sent.
  pose proof (conforming_room_inv _ Hconf) as Hinv.
  destruct (room_inv_host_live _ _ _ Hinv Hhost) as (Huid & Hcur & _).
  subst sent tab. rewrite (refused_start_messages uid paths Huid).
  assert (room_members (room_of uid) (sockets st) = students ∪ {[c1]}) as Hroom.
  { destruct Hhost as (s1 & Hs1 & Hc1 & Hst1).
    pose proof (whiteboardUpdate_exact st c1 uid students Hconf Hl) as Hex.
    unfold currentTeacherId_of, isStudent_of in Hex. rewrite Hs1 in Hex.
    specialize (Hex Hc1 Hst1).
    assert (c1 ∈ room_members (room_of uid) (sockets st)) as Hin.
    { apply elem_of_room_members.
      destruct (rinv_host _ Hinv uid c1) as (s & Hs & Hr); [by exists s1|].
      eauto. }
    apply set_eq. intros r. rewrite <- Hex.
    destruct (decide (r = c1)) as [->|]; set_solver. }
  assert (liveTeachers st = {[ uid := students ]}) as Hlt.
  { apply map_eq. intros t. rewrite lookup_singleton.
    destruct (decide (uid = t)) as [<-|Hd]; [done|].
    destruct (liveTeachers st !! t) eqn:Hlt; [|done].
    assert (currentLiveTeacher st = Some t) by (apply room_inv_sessions; eauto).
    congruence. }
  cbn [fmap list_fmap run].
  rewrite startLive_rejected; [|by rewrite Hcur; apply truthy_Some|done].
  cbv beta iota zeta.
  rewrite step_message by done. cbn [on_message].
  unfold on_whiteboardUpdate, broadcast_to. cbn [teacherId].
  rewrite Hroom. cbv beta iota zeta.
  rewrite step_message by done. cbn [on_message].
  rewrite (on_stopLive_live _ _ _ _ Hl).
  eexists. split; [reflexivity|]. cbn [liveTeachers currentLiveTeacher sockets].
  destruct Hhost as (s1 & Hs1 & Hc1 & Hst1).
  assert (c1 ∉ students) as Hc1s.
  { apply (host_not_subscriber st uid uid students c1 (rinv_base _ Hinv));
      [by exists s1|done]. }
  split_and!.
  - rewrite Hlt. apply delete_singleton_eq.
  - by destruct (decide (currentLiveTeacher st = Some uid)).
  - exists s1. cbn [sockets].
    destruct (decide (currentTeacherId_of c2 st = Some uid));
      rewrite ?lookup_alter_ne by done; rewrite evict_lookup, Hs1; simpl;
      by rewrite decide_False.
  - intros r [s [Hs Hin]]%elem_of_room_members.
    apply elem_of_singleton. destruct (decide (r = c1)) as [|Hr]; [done|].
    exfalso.
    assert (r ∈ students ∨ r = c2) as Hcase.
    { destruct (decide (r = c2)); [by right|left].
      assert (r ∈ room_members (room_of uid) (sockets st)) as Hin0.
      { apply elem_of_room_members.
        destruct (decide (currentTeacherId_of c2 st = Some uid));
          rewrite ?lookup_alter_ne in Hs by done; rewrite evict_lookup in Hs;
          destruct (sockets st !! r) as [s0|]; try done; simpl in Hs;
          exists s0; (split; [done|]);
          destruct (decide (r ∈ students)); simplify_eq/=; set_solver. }
      rewrite Hroom in Hin0. set_solver. }
    destruct (decide (currentTeacherId_of c2 st = Some uid)) as [Hcur2|Hcur2].
    + rewrite !lookup_alter_fmap, evict_lookup in Hs.
      destruct (sockets st !! r) as [s0|]; [|done]. simpl in Hs.
      destruct (decide (c2 = r)), (decide (r ∈ students));
        simplify_eq/=; set_solver.
    + rewrite evict_lookup in Hs.
      destruct (sockets st !! r) as [s0|] eqn:Hs0; [|done]. simpl in Hs.
      destruct (decide (r ∈ students)); simplify_eq/=; [set_solver|].
      destruct Hcase as [?| ->]; [done|].
      (* c2 is in the room, not a subscriber and not the host *)
      assert (c2 = c1); [|done].
      apply (rinv_one_guest _ Hinv uid students); try done.
      * by exists s.
      * apply (rinv_host _ Hinv). by exists s1.
Qed.

Lemma X24_witness :
  let st := exec [Connection; Connection; Connection;
                  Message 0 (StartLive "t1"); Message 1 (JoinTeacherRoom "t1")] in
  let tab := TeacherWhiteboard.confirmStartLive (Some "t1") (Some "[]") false in
  let sent := tab.2 ++ (TeacherWhiteboard.handleLiveError (Some "t1") tab.1).2 in
  ∃ st',
    run (Message 2 <$> sent) st
    = (st', [({[2]}, LiveError liveError_message);
             (({[1]} ∪ {[0]}) ∖ {[2]},
              WhiteboardUpdateOut (mkWhiteboardUpdate "t1" "[]"));
             (dom (sockets st), TeacherOffline "t1")]) ∧
    liveTeachers st' = ∅ ∧
    currentLiveTeacher st' = None ∧
    host "t1" st' 0 ∧
    room_members (room_of "t1") (sockets st') ⊆ {[0]}.
Proof.
  apply (X24_second_tab_ends_session
           (exec [Connection; Connection; Connection;
                  Message 0 (StartLive "t1"); Message 1 (JoinTeacherRoom "t1")])
           0 2 "t1" "[]" {[1]}).
  - apply conforming_run; [constructor|]. simpl. split_and!; done.
  - exists (mkSocket (Some "t1") false {[room_of "t1"]}).
    vm_compute. split_and!; reflexivity.
  - vm_compute. reflexivity.
  - vm_compute. reflexivity.
  - discriminate.
Defined.
